(** * Jira task tracker: the monitoring engine

  A shallow embedding of the four classes of the monitoring engine
  ([PollingManager], [XMLManager], [NotificationManager], [TaskManager])
  and the properties of their methods.

  Conventions.
  - JavaScript numbers that the engine handles are millisecond
    timestamps, millisecond durations and counters; they are integers
    and are modelled in [Z].
  - A JavaScript [Map] keyed by strings is a [gmap string _];
    [Map.get] of an absent key ([undefined]) is [None].
  - Reads of the wall clock ([Date.now()], [new Date()]) are an extra
    argument [now] of the method that performs them.
  - A method that can throw returns a sum: [inl] carries the error,
    [inr] the value. *)

From Stdlib Require Import ZArith Lia.
From stdpp Require Import base option list gmap strings numbers.
From stdpp Require pretty.

Local Open Scope Z_scope.

(** ** PollingManager: the adaptive poll interval *)

Module PollingManager.

Record t := {
  tasks : gmap string unit;
  pollingInterval : Z;
  lastUpdateTimes : gmap string Z;
  errorCounts : gmap string Z
}.

(** [constructor()]: empty maps, a base interval of thirty seconds. *)
Definition constructor : t :=
  {| tasks := ∅;
     pollingInterval := 30000;
     lastUpdateTimes := ∅;
     errorCounts := ∅ |}.

Definition set_lastUpdateTimes (m : gmap string Z) (pm : t) : t :=
  {| tasks := tasks pm; pollingInterval := pollingInterval pm;
     lastUpdateTimes := m; errorCounts := errorCounts pm |}.

Definition set_errorCounts (m : gmap string Z) (pm : t) : t :=
  {| tasks := tasks pm; pollingInterval := pollingInterval pm;
     lastUpdateTimes := lastUpdateTimes pm; errorCounts := m |}.

(** [this.errorCounts.get(taskId) || 0] *)
Definition errorCount (pm : t) (taskId : string) : Z :=
  default 0 (errorCounts pm !! taskId).

(** [!lastUpdate]: the entry is absent or is the falsy number [0]. *)
Definition falsy (lastUpdate : option Z) : bool :=
  match lastUpdate with
  | None => true
  | Some v => bool_decide (v = 0)
  end.

(** [getTaskInterval(taskId)].  For an integer [errorCount >= 1] the
    product [pollingInterval * Math.pow(2, errorCount)] is exact in
    double precision until it overflows to [Infinity]; from
    [errorCount = 5] on both the exact product and [Infinity] exceed
    the cap, so [Z.min] on the exact product is what [Math.min]
    returns. *)
Definition getTaskInterval (pm : t) (taskId : string) (now : Z) : Z :=
  let lastUpdate := lastUpdateTimes pm !! taskId in
  let errorCount := errorCount pm taskId in
  if bool_decide (0 < errorCount) then
    Z.min (pollingInterval pm * 2 ^ errorCount) 900000
  else if falsy lastUpdate then pollingInterval pm
  else
    let timeSinceUpdate := now - default 0 lastUpdate in
    if bool_decide (timeSinceUpdate < 3600000) then 30000
    else if bool_decide (timeSinceUpdate < 86400000) then 300000
    else 900000.

(** Only the constructor writes [pollingInterval]. *)
Definition constructed (pm : t) : Prop := pollingInterval pm = 30000.

End PollingManager.

(** ** XMLManager: fetch, parse and diff against the cached snapshot *)

Module XMLManager.

(** What a cycle can throw. *)
Inductive Error :=
| NetworkError
| HttpError (status : Z)
| ParseError.

(** The record [parseXML] produces: four scalar fields and the ordered
    comment list. *)
Record TaskData := {
  status : string;
  assignee : string;
  priority : string;
  resolution : string;
  comments : list string
}.

#[global] Instance TaskData_eq_dec : EqDecision TaskData.
Proof. solve_decision. Defined.

(** [data[field]] for the field names [detectChanges] walks over. *)
Definition get (data : TaskData) (field : string) : string :=
  if decide (field = "status") then status data
  else if decide (field = "assignee") then assignee data
  else if decide (field = "priority") then priority data
  else if decide (field = "resolution") then resolution data
  else "".

Record FieldChange := { from : string; to : string }.

#[global] Instance FieldChange_eq_dec : EqDecision FieldChange.
Proof. solve_decision. Defined.

(** The [details] object: [isNew] is [true] when the key is set,
    [fields] holds the keys [details[field]] that were assigned, and
    [newComments] is [None] while the key is unset. *)
Record Details := {
  isNew : bool;
  fields : gmap string FieldChange;
  newComments : option (list string)
}.

Record Changes := { hasChanges : bool; details : Details }.

(** [details: {}] *)
Definition no_details : Details :=
  {| isNew := false; fields := ∅; newComments := None |}.

(** The body of the [forEach] callback. *)
Definition check_field (oldData newData : TaskData)
    (changes : Changes) (field : string) : Changes :=
  if bool_decide (get oldData field ≠ get newData field) then
    {| hasChanges := true;
       details :=
         {| isNew := isNew (details changes);
            fields := <[field := {| from := get oldData field;
                                    to := get newData field |}]>
                        (fields (details changes));
            newComments := newComments (details changes) |} |}
  else changes.

(** The comment test that follows the [forEach]. *)
Definition check_comments (oldData newData : TaskData)
    (changes : Changes) : Changes :=
  if bool_decide (length (comments oldData) < length (comments newData))%nat then
    {| hasChanges := true;
       details :=
         {| isNew := isNew (details changes);
            fields := fields (details changes);
            newComments :=
              Some (drop (length (comments oldData)) (comments newData)) |} |}
  else changes.

(** [detectChanges(oldData, newData)]; [oldData] is [None] for
    [undefined] (a cached value is an object, hence truthy). *)
Definition detectChanges (oldData : option TaskData) (newData : TaskData)
    : Changes :=
  match oldData with
  | None =>
      {| hasChanges := true;
         details := {| isNew := true; fields := ∅; newComments := None |} |}
  | Some oldData =>
      let changes := {| hasChanges := false; details := no_details |} in
      let changes :=
        foldl (check_field oldData newData) changes
          ["status"; "assignee"; "priority"; "resolution"] in
      check_comments oldData newData changes
  end.

(** The state of an [XMLManager].  The values of [failedRequests] are
    written by [handleFetchError] alone. *)
Record t := {
  cache : gmap string TaskData;
  failedRequests : gmap string Z
}.

Definition constructor : t := {| cache := ∅; failedRequests := ∅ |}.

Definition set_cache (c : gmap string TaskData) (xm : t) : t :=
  {| cache := c; failedRequests := failedRequests xm |}.

Definition set_failedRequests (f : gmap string Z) (xm : t) : t :=
  {| cache := cache xm; failedRequests := f |}.

(** The value [processXMLData] returns. *)
Record Result := { changed : bool; changes : Details; data : TaskData }.

(** What [fetch] resolves to. *)
Record Response := { ok : bool; http_status : Z; text : string }.

(** The methods of the class that the engine calls and that are not
    part of the sources: the parser (which throws on a document it
    cannot read), the URL rewriting and the failure bookkeeping. *)
Class Helpers := {
  parseXML : string → Error + TaskData;
  convertToXmlUrl : string → string;
  handleFetchError : t → string → Error → t
}.

Section Methods.
Context `{Helpers}.

(** [processXMLData(xmlText, taskUrl)] *)
Definition processXMLData (xm : t) (xmlText taskUrl : string)
    : Error + (t * Result) :=
  match parseXML xmlText with
  | inl e => inl e
  | inr taskData =>
      let previousData := cache xm !! taskUrl in
      let changes := detectChanges previousData taskData in
      let xm :=
        if hasChanges changes
        then set_cache (<[taskUrl := taskData]> (cache xm)) xm
        else xm in
      inr (xm, {| changed := hasChanges changes;
                  changes := details changes;
                  data := taskData |})
  end.

(** [fetchTaskXML(taskUrl)].  [net] is the remote side: what [fetch]
    of a URL resolves to, [None] when the request itself is rejected.
    Everything thrown inside the [try] goes through
    [handleFetchError] and is thrown again. *)
Definition fetchTaskXML (net : string → option Response)
    (xm : t) (taskUrl : string) : t * (Error + Result) :=
  let xmlUrl := convertToXmlUrl taskUrl in
  match net xmlUrl with
  | None => (handleFetchError xm taskUrl NetworkError, inl NetworkError)
  | Some response =>
      if negb (ok response) then
        let error := HttpError (http_status response) in
        (handleFetchError xm taskUrl error, inl error)
      else
        let xm := set_failedRequests (delete taskUrl (failedRequests xm)) xm in
        match processXMLData xm (text response) taskUrl with
        | inl error => (handleFetchError xm taskUrl error, inl error)
        | inr (xm, result) => (xm, inr result)
        end
  end.

(** The three ways a cycle fails inside [fetchTaskXML]: the request is
    rejected, the response status is not a success, or the document
    does not parse. *)
Definition cycle_fails (net : string → option Response)
    (taskUrl : string) (error : Error) : Prop :=
  (net (convertToXmlUrl taskUrl) = None ∧
   error = NetworkError) ∨
  (∃ response,
     net (convertToXmlUrl taskUrl) = Some response ∧
     ok response = false ∧
     error = HttpError (http_status response)) ∨
  (∃ response,
     net (convertToXmlUrl taskUrl) = Some response ∧
     ok response = true ∧
     parseXML (text response) = inl error).

End Methods.

End XMLManager.

(** ** NotificationManager: the notification queue and its grouping *)

(** The [update] object handed to [addNotification]. *)
Module Update.

Record Changes := {
  type : string;
  (** whatever else the change carries; only [createTitle] and
      [createMessage] read it *)
  body : string
}.

Record t := { taskKey : string; changes : Changes }.

End Update.

Module NotificationManager.

Record Notification := {
  id : Z;
  taskKey : string;
  title : string;
  message : string;
  type : string;
  timestamp : Z;
  groupId : string
}.

#[global] Instance Notification_eq_dec : EqDecision Notification.
Proof. solve_decision. Defined.

Record Preferences := { enabled : bool; sound : bool; grouping : bool }.

(** The state of a [NotificationManager].  [shown] is the presentation
    sink: the notifications [showNotification] was called with, in call
    order. *)
Record t := {
  notificationQueue : list Notification;
  isProcessing : bool;
  preferences : Preferences;
  shown : list Notification
}.

Definition constructor : t :=
  {| notificationQueue := [];
     isProcessing := false;
     preferences := {| enabled := true; sound := false; grouping := true |};
     shown := [] |}.

Definition set_notificationQueue (q : list Notification) (nm : t) : t :=
  {| notificationQueue := q; isProcessing := isProcessing nm;
     preferences := preferences nm; shown := shown nm |}.

Definition set_isProcessing (b : bool) (nm : t) : t :=
  {| notificationQueue := notificationQueue nm; isProcessing := b;
     preferences := preferences nm; shown := shown nm |}.

Definition set_preferences (p : Preferences) (nm : t) : t :=
  {| notificationQueue := notificationQueue nm; isProcessing := isProcessing nm;
     preferences := p; shown := shown nm |}.

(** [similar.message = ...] *)
Definition set_message (m : string) (n : Notification) : Notification :=
  {| id := id n; taskKey := taskKey n; title := title n; message := m;
     type := type n; timestamp := timestamp n; groupId := groupId n |}.

(** [showNotification(notification)]: hand the entry to the sink. *)
Definition showNotification (n : Notification) (nm : t) : t :=
  {| notificationQueue := notificationQueue nm; isProcessing := isProcessing nm;
     preferences := preferences nm; shown := shown nm ++ [n] |}.

(** The test of the [find] callback: same group, and the incoming
    timestamp less than five minutes after the queued one. *)
Definition similar (notification n : Notification) : Prop :=
  groupId n = groupId notification ∧
  timestamp notification - timestamp n < 300000.

#[global] Instance similar_dec notification n : Decision (similar notification n).
Proof. unfold similar. apply _. Defined.

(** The text builders of the class, which are not part of the
    sources. *)
Class Helpers := {
  createTitle : Update.t → string;
  createMessage : Update.t → string;
  createGroupMessage : Notification → Notification → string
}.

Section Methods.
Context `{Helpers}.

(** [createNotification(update)]; both clock reads happen at [now]. *)
Definition createNotification (update : Update.t) (now : Z) : Notification :=
  {| id := now;
     taskKey := Update.taskKey update;
     title := createTitle update;
     message := createMessage update;
     type := Update.type (Update.changes update);
     timestamp := now;
     groupId := Update.taskKey update |}.

(** [tryGroupNotification(notification)]: [Array.find] yields the first
    queued entry that passes the test; assigning to its [message]
    changes the queue at that entry's index. *)
Definition tryGroupNotification (nm : t) (notification : Notification)
    : t * bool :=
  match list_find (similar notification) (notificationQueue nm) with
  | Some (i, similar) =>
      let similar :=
        set_message (createGroupMessage similar notification) similar in
      (set_notificationQueue (<[i := similar]> (notificationQueue nm)) nm, true)
  | None => (nm, false)
  end.

(** One turn of the [while] loop of [processQueue], up to its [await]:
    an empty queue ends the loop and clears [isProcessing]; otherwise
    the head is shifted out and shown, and the loop is suspended. *)
Definition drain (nm : t) : t :=
  match notificationQueue nm with
  | [] => set_isProcessing false nm
  | notification :: rest =>
      showNotification notification (set_notificationQueue rest nm)
  end.

(** [processQueue()], up to its first [await]. *)
Definition processQueue (nm : t) : t :=
  if negb (enabled (preferences nm)) then nm
  else drain (set_isProcessing true nm).

(** [addNotification(update)].  The call [this.processQueue()] is not
    awaited: it runs up to its first suspension point and the method
    returns. *)
Definition addNotification (nm : t) (update : Update.t) (now : Z) : t :=
  let notification := createNotification update now in
  let '(nm, grouped) :=
    if grouping (preferences nm)
    then tryGroupNotification nm notification
    else (nm, false) in
  if grouped then nm
  else
    let nm :=
      set_notificationQueue (notificationQueue nm ++ [notification]) nm in
    if negb (isProcessing nm) then processQueue nm else nm.

(** What happens to a manager: an update is enqueued at some instant,
    or the suspended loop of [processQueue] wakes up (after the
    notification was shown and the three seconds have passed) and takes
    its next turn.  A wake-up exists only while [isProcessing]. *)
Inductive Event :=
| Enqueue (update : Update.t) (now : Z)
| WakeUp.

Definition step (nm : t) (e : Event) : t :=
  match e with
  | Enqueue update now => addNotification nm update now
  | WakeUp => if isProcessing nm then drain nm else nm
  end.

Definition run (nm : t) (events : list Event) : t := foldl step nm events.

End Methods.

(** No two queued entries of one group lie within the grouping window:
    of two entries with the same [groupId], the later one in the queue
    is stamped at least five minutes after the earlier one. *)
Definition window_free (q : list Notification) : Prop :=
  ∀ (i j : nat) (a b : Notification),
    (i < j)%nat → q !! i = Some a → q !! j = Some b →
    groupId a = groupId b → 300000 ≤ timestamp b - timestamp a.

(** What the window test reads of an entry. *)
Definition stamp (n : Notification) : string * Z :=
  (groupId n, timestamp n).

End NotificationManager.

(** ** TaskManager: the per-task monitor loop *)

Module TaskManager.

(** Modelled from the spec: the keys [lastChange], [lastValues] and
    [errorCount] of a task object, which no object literal of the
    sources sets; they are the time of the last change, the cached
    last-known record and the consecutive-error counter of the data
    model (section 3).  [url], [added], [lastCheck] and [status] are the
    keys of the object literal in [addTask].  An unset key is [None], an
    unset counter [0]. *)
Record Task := {
  url : string;
  added : Z;
  lastCheck : option Z;
  status : string;
  lastChange : option Z;
  lastValues : option XMLManager.TaskData;
  errorCount : Z
}.

Definition set_errorCount (k : Z) (task : Task) : Task :=
  {| url := url task; added := added task; lastCheck := lastCheck task;
     status := status task; lastChange := lastChange task;
     lastValues := lastValues task; errorCount := k |}.

(** A pending [setTimeout(monitor, delay)]: the closure [monitor] is
    fixed by the [taskId] and [task] that [startMonitoring] received. *)
Record Timer := { timer_taskId : string; timer_task : Task; delay : Z }.

(** Modelled from the spec: [StorageManager] is not part of the sources.
    Its content is the persistent store of section 6, a mapping from
    task identifiers to tasks with read-your-writes consistency;
    [storageManager] is that content, which outlives the process. *)
Record t := {
  pollingManager : PollingManager.t;
  xmlManager : XMLManager.t;
  notificationManager : NotificationManager.t;
  storageManager : gmap string Task;
  activeTasks : gmap string Task;
  timers : list Timer
}.

Definition set_pollingManager (pm : PollingManager.t) (tm : t) : t :=
  {| pollingManager := pm; xmlManager := xmlManager tm;
     notificationManager := notificationManager tm;
     storageManager := storageManager tm; activeTasks := activeTasks tm;
     timers := timers tm |}.

Definition set_xmlManager (xm : XMLManager.t) (tm : t) : t :=
  {| pollingManager := pollingManager tm; xmlManager := xm;
     notificationManager := notificationManager tm;
     storageManager := storageManager tm; activeTasks := activeTasks tm;
     timers := timers tm |}.

Definition set_activeTasks (a : gmap string Task) (tm : t) : t :=
  {| pollingManager := pollingManager tm; xmlManager := xmlManager tm;
     notificationManager := notificationManager tm;
     storageManager := storageManager tm; activeTasks := a;
     timers := timers tm |}.

(** Modelled from the spec: [StorageManager.saveTask(id, task)] of
    section 6 writes the task under its identifier. *)
Definition saveTask (taskId : string) (task : Task) (tm : t) : t :=
  {| pollingManager := pollingManager tm; xmlManager := xmlManager tm;
     notificationManager := notificationManager tm;
     storageManager := <[taskId := task]> (storageManager tm);
     activeTasks := activeTasks tm; timers := timers tm |}.

(** [setTimeout(monitor, delay)] for the monitor of [(taskId, task)]. *)
Definition setTimeout (taskId : string) (task : Task) (delay : Z) (tm : t) : t :=
  {| pollingManager := pollingManager tm; xmlManager := xmlManager tm;
     notificationManager := notificationManager tm;
     storageManager := storageManager tm; activeTasks := activeTasks tm;
     timers := timers tm ++
       [{| timer_taskId := taskId; timer_task := task; delay := delay |}] |}.

(** The constructor, before it calls [initialize]: fresh managers, no
    active task, no timer, over the persisted store. *)
Definition constructor (persisted : gmap string Task) : t :=
  {| pollingManager := PollingManager.constructor;
     xmlManager := XMLManager.constructor;
     notificationManager := NotificationManager.constructor;
     storageManager := persisted;
     activeTasks := ∅;
     timers := [] |}.

Inductive AddError := ValidationError.

(** The methods the class calls that are not part of the sources, and
    the predicate that tells a terminal task status. *)
Class Helpers := {
  extractTaskId : string → string;
  validateTask : (string → option XMLManager.Response) → string → bool;
  handleChanges : t → string → XMLManager.Result → Z → t;
  terminal : string → bool
}.

Section Methods.
Context `{XMLManager.Helpers} `{Helpers}.

(** Modelled from the spec: [TaskManager.handleError] is not part of
    the sources.  Section 4.4: on failure the orchestrator increments
    the error counter and persists, then continues the loop; section
    4.4 (Removed): nothing is persisted for a task that is no longer in
    the store.  The counter is the one [getTaskInterval] reads; the
    loop continues after the delay [getTaskInterval] gives. *)
Definition handleError (tm : t) (taskId : string)
    (error : XMLManager.Error) (now : Z) : t :=
  let pm := pollingManager tm in
  let k := PollingManager.errorCount pm taskId + 1 in
  let pm := PollingManager.set_errorCounts
              (<[taskId := k]> (PollingManager.errorCounts pm)) pm in
  let tm := set_pollingManager pm tm in
  match storageManager tm !! taskId with
  | None => tm
  | Some task =>
      let task := set_errorCount k task in
      let tm := saveTask taskId task tm in
      setTimeout taskId task (PollingManager.getTaskInterval pm taskId now) tm
  end.

(** The closure [monitor] of [startMonitoring(taskId, task)]: one
    cycle, taken as one step at the instant [now] at which the response
    [net] gives is in. *)
Definition monitor (net : string → option XMLManager.Response) (now : Z)
    (tm : t) (taskId : string) (task : Task) : t :=
  let '(xm, outcome) :=
    XMLManager.fetchTaskXML net (xmlManager tm) (url task) in
  let tm := set_xmlManager xm tm in
  match outcome with
  | inr result =>
      let tm :=
        if XMLManager.changed result
        then handleChanges tm taskId result now
        else tm in
      let nextInterval :=
        PollingManager.getTaskInterval (pollingManager tm) taskId now in
      setTimeout taskId task nextInterval tm
  | inl error => handleError tm taskId error now
  end.

(** [startMonitoring(taskId, task)]: the first cycle starts at once. *)
Definition startMonitoring (net : string → option XMLManager.Response)
    (now : Z) (tm : t) (taskId : string) (task : Task) : t :=
  monitor net now tm taskId task.

(** [addTask(taskUrl)] *)
Definition addTask (net : string → option XMLManager.Response) (now : Z)
    (tm : t) (taskUrl : string) : t * (AddError + string) :=
  let taskId := extractTaskId taskUrl in
  if negb (validateTask net taskUrl) then (tm, inl ValidationError)
  else
    let task :=
      {| url := taskUrl; added := now; lastCheck := None;
         status := "active";
         lastChange := None; lastValues := None; errorCount := 0 |} in
    let tm := saveTask taskId task tm in
    let tm := startMonitoring net now tm taskId task in
    (tm, inr taskId).

(** Modelled from the spec: [TaskManager.resumeTask] is not part of the
    sources.  Section 4.4 (Resume): a persisted task whose status is
    not terminal is re-entered into monitoring, and its persisted
    timestamps give the initial delay, no elapsed time starting again
    from zero.  The persisted counter, time of last change and snapshot
    are put back where [getTaskInterval] and [processXMLData] read
    them.  The first cycle is scheduled after what is left of the
    interval [getTaskInterval] gives from them, the time since the
    persisted last check being taken off: a task that is overdue is
    checked at once, a task never checked waits the whole interval. *)
Definition resumeTask (now : Z) (tm : t) (taskId : string)
    (taskData : Task) : t :=
  if terminal (status taskData) then tm
  else
    let pm := pollingManager tm in
    let pm := PollingManager.set_errorCounts
                (<[taskId := errorCount taskData]>
                   (PollingManager.errorCounts pm)) pm in
    let pm :=
      match lastChange taskData with
      | Some c => PollingManager.set_lastUpdateTimes
                    (<[taskId := c]> (PollingManager.lastUpdateTimes pm)) pm
      | None => pm
      end in
    let xm := xmlManager tm in
    let xm :=
      match lastValues taskData with
      | Some d => XMLManager.set_cache
                    (<[url taskData := d]> (XMLManager.cache xm)) xm
      | None => xm
      end in
    let tm := set_xmlManager xm (set_pollingManager pm tm) in
    let tm := set_activeTasks (<[taskId := taskData]> (activeTasks tm)) tm in
    let interval := PollingManager.getTaskInterval pm taskId now in
    let delay :=
      match lastCheck taskData with
      | Some checked => Z.max 0 (interval - Z.max 0 (now - checked))
      | None => interval
      end in
    setTimeout taskId taskData delay tm.

(** [initialize()]: every saved task is resumed, in the order
    [loadTasks] lists them. *)
Definition initialize (now : Z) (tm : t) : t :=
  foldl (λ tm entry, resumeTask now tm entry.1 entry.2) tm
    (map_to_list (storageManager tm)).

(** A process start over the persisted store: [new TaskManager()]. *)
Definition restart (persisted : gmap string Task) (now : Z) : t :=
  initialize now (constructor persisted).

End Methods.







End TaskManager.

(** ** The orchestrator: persisting a change, and the life of a manager *)

Module Orchestrator.
Import TaskManager.

Definition set_notificationManager (nm : NotificationManager.t) (tm : t) : t :=
  {| pollingManager := pollingManager tm; xmlManager := xmlManager tm;
     notificationManager := nm;
     storageManager := storageManager tm; activeTasks := activeTasks tm;
     timers := timers tm |}.

(** A timer that fires leaves the pending ones. *)
Definition cancel (i : nat) (tm : t) : t :=
  {| pollingManager := pollingManager tm; xmlManager := xmlManager tm;
     notificationManager := notificationManager tm;
     storageManager := storageManager tm; activeTasks := activeTasks tm;
     timers := delete i (timers tm) |}.


Section Changes.
Context `{NotificationManager.Helpers}.

(** How a change set is worded for the dispatcher, which is not part
    of the sources. *)
Variable describe : XMLManager.Details → Update.Changes.

(** Modelled from the spec: [TaskManager.handleChanges] is not part of
    the sources.  Section 4.4 (Monitoring, d): on success with changes
    the orchestrator forwards the change set to the dispatcher and
    persists the updated task plus the new snapshot; section 3: the task
    records the time of its last successful check and of its last
    change, and the error counter resets to zero on a successful cycle;
    section 4.4 (Removed): the result of a cycle of a task that is no
    longer in the store is discarded.  The counter and the time of last
    change are also written where [getTaskInterval] reads them. *)
Definition handleChanges (tm : t) (taskId : string)
    (result : XMLManager.Result) (now : Z) : t :=
  match storageManager tm !! taskId with
  | None => tm
  | Some task =>
      let update :=
        {| Update.taskKey := taskId;
           Update.changes := describe (XMLManager.changes result) |} in
      let nm :=
        NotificationManager.addNotification (notificationManager tm) update now in
      let pm := pollingManager tm in
      let pm := PollingManager.set_errorCounts
                  (<[taskId := 0]> (PollingManager.errorCounts pm)) pm in
      let pm := PollingManager.set_lastUpdateTimes
                  (<[taskId := now]> (PollingManager.lastUpdateTimes pm)) pm in
      let task :=
        {| url := url task; added := added task; lastCheck := Some now;
           status := status task; lastChange := Some now;
           lastValues := Some (XMLManager.data result); errorCount := 0 |} in
      saveTask taskId task (set_notificationManager nm (set_pollingManager pm tm))
  end.

End Changes.

Section Life.
Context `{XMLManager.Helpers} `{TaskManager.Helpers}.

(** What happens to a manager: a task that is not yet registered is
    added, a pending timer fires and its monitor runs a cycle, or the
    process starts again over the store.  Clock readings are positive. *)
Inductive step : t → t → Prop :=
| step_add net now tm taskUrl :
    0 < now →
    storageManager tm !! extractTaskId taskUrl = None →
    step tm (addTask net now tm taskUrl).1
| step_fire net now tm i timer :
    0 < now →
    timers tm !! i = Some timer →
    step tm (monitor net now (cancel i tm) (timer_taskId timer) (timer_task timer))
| step_restart now tm :
    step tm (restart (storageManager tm) now).




End Life.

End Orchestrator.

(** ** ConnectionManager: the socket and its retries (background.js) *)

Module ConnectionManager.

(** [ws] tells whether a socket has been created; [timers] holds the
    delays of the pending [setTimeout] calls that will call [connect];
    [badge] is the last badge text and colour handed to the browser. *)
Record t := {
  ws : bool;
  isConnected : bool;
  retryCount : Z;
  maxRetries : Z;
  timers : list Z;
  badge : option (string * string)
}.

Definition constructor : t :=
  {| ws := false; isConnected := false; retryCount := 0; maxRetries := 5;
     timers := []; badge := None |}.

(** [showStatus(message)] *)
Definition showStatus (cm : t) : t :=
  {| ws := ws cm; isConnected := isConnected cm; retryCount := retryCount cm;
     maxRetries := maxRetries cm; timers := timers cm;
     badge := Some (if isConnected cm then "✓" else "!",
                    if isConnected cm then "#4CAF50" else "#F44336") |}.

(** [retryConnection()]: the delay is computed after the increment. *)
Definition retryConnection (cm : t) : t :=
  if bool_decide (retryCount cm < maxRetries cm) then
    let retryCount := retryCount cm + 1 in
    {| ws := ws cm; isConnected := isConnected cm; retryCount := retryCount;
       maxRetries := maxRetries cm;
       timers := timers cm ++ [5000 * retryCount];
       badge := badge cm |}
  else cm.

(** [connect()]; [throws] tells whether [new WebSocket] throws. *)
Definition connect (throws : bool) (cm : t) : t :=
  if throws then retryConnection cm
  else {| ws := true; isConnected := isConnected cm;
          retryCount := retryCount cm; maxRetries := maxRetries cm;
          timers := timers cm; badge := badge cm |}.

(** The [onopen] handler. *)
Definition onopen (cm : t) : t :=
  showStatus
    {| ws := ws cm; isConnected := true; retryCount := 0;
       maxRetries := maxRetries cm; timers := timers cm; badge := badge cm |}.

(** The [onclose] handler. *)
Definition onclose (cm : t) : t :=
  retryConnection
    (showStatus
       {| ws := ws cm; isConnected := false; retryCount := retryCount cm;
          maxRetries := maxRetries cm; timers := timers cm;
          badge := badge cm |}).

(** What happens to a manager: the socket opens, the socket closes, or
    the pending timer at index [i] fires and calls [connect]. *)
Inductive Event :=
| Open
| Close
| Fire (i : nat) (throws : bool).

Definition step (cm : t) (e : Event) : t :=
  match e with
  | Open => onopen cm
  | Close => onclose cm
  | Fire i throws =>
      match timers cm !! i with
      | None => cm
      | Some _ =>
          connect throws
            {| ws := ws cm; isConnected := isConnected cm;
               retryCount := retryCount cm; maxRetries := maxRetries cm;
               timers := delete i (timers cm); badge := badge cm |}
      end
  end.

Definition run (cm : t) (events : list Event) : t := foldl step cm events.

(** A retry delay: five seconds times a retry number from one to
    five. *)
Definition retry_delay (d : Z) : Prop := ∃ k, 1 ≤ k ≤ 5 ∧ d = 5000 * k.

End ConnectionManager.

(** ** UpdateHandler of the event-stream client: the list of updates
    (sse_implementation_guide.md) *)

Module SseUpdateHandler.

(** An update as the server sends it. *)
Record Incoming := {
  type : string;
  taskId : string;
  change : gmap string string;
  timestamp : Z
}.

(** A kept update: the incoming one with [id] and [read] set. *)
Record Entry := { update : Incoming; id : Z; read : bool }.

(** [stored] is the value last written under [jiraUpdates], [badgeText]
    the last badge text. *)
Record t := {
  updates : list Entry;
  maxUpdates : Z;
  stored : option (list Entry);
  badgeText : option string
}.

Definition constructor : t :=
  {| updates := []; maxUpdates := 100; stored := None; badgeText := None |}.

(** [saveUpdates()] *)
Definition saveUpdates (h : t) : t :=
  {| updates := updates h; maxUpdates := maxUpdates h;
     stored := Some (updates h); badgeText := badgeText h |}.

(** [this.updates.filter(u => !u.read).length] *)
Definition unread (h : t) : nat :=
  length (filter (λ u, read u = false) (updates h)).

(** [updateBadge()] *)
Definition updateBadge (h : t) : t :=
  {| updates := updates h; maxUpdates := maxUpdates h; stored := stored h;
     badgeText := Some (if bool_decide (0 < unread h)%nat
                        then pretty.pretty (unread h) else "") |}.

(** [addUpdate(update)]: [unshift], then [pop] when the list is longer
    than [maxUpdates]. *)
Definition addUpdate (now : Z) (update : Incoming) (h : t) : t :=
  let updates :=
    {| update := update; id := now; read := false |} :: updates h in
  let updates :=
    if bool_decide (maxUpdates h < Z.of_nat (length updates))
    then removelast updates else updates in
  updateBadge
    (saveUpdates
       {| updates := updates; maxUpdates := maxUpdates h;
          stored := stored h; badgeText := badgeText h |}).

(** The entry [addUpdate] makes of an update that arrives at an
    instant. *)
Definition entry (arrival : Z * Incoming) : Entry :=
  {| update := arrival.2; id := arrival.1; read := false |}.

(** Updates added one after the other, each at its instant. *)
Definition addUpdates (h : t) (arrivals : list (Z * Incoming)) : t :=
  foldl (λ h arrival, addUpdate arrival.1 arrival.2 h) h arrivals.

End SseUpdateHandler.

(** ** PopupUI: the age of an update (sse_implementation_guide.md) *)

Module PopupUI.

(** [formatTime(timestamp)] for a timestamp that is a valid date;
    [toLocaleDateString] is the browser's rendering of a date. *)
Definition formatTime (toLocaleDateString : Z → string)
    (now timestamp : Z) : string :=
  let diff := now - timestamp in
  if bool_decide (diff < 60000) then "Just now"
  else if bool_decide (diff < 3600000) then
    let minutes := diff / 60000 in
    pretty.pretty minutes +:+ " minute" +:+
    (if bool_decide (1 < minutes) then "s" else "") +:+ " ago"
  else if bool_decide (diff < 86400000) then
    let hours := diff / 3600000 in
    pretty.pretty hours +:+ " hour" +:+
    (if bool_decide (1 < hours) then "s" else "") +:+ " ago"
  else toLocaleDateString timestamp.

End PopupUI.

(** ** UpdateHandler of the socket client: the notification history
    (background.js) *)

Module UpdateHandler.

Record Notification := { title : string; message : string; timestamp : Z }.

#[global] Instance Notification_eq_dec : EqDecision Notification.
Proof. solve_decision. Defined.

Definition ONE_DAY : Z := 24 * 60 * 60 * 1000.

(** [cleanOldUpdates()]: the filter, with the clock read at [now]. *)
Definition cleanOldUpdates (now : Z) (notifications : list Notification)
    : list Notification :=
  filter (λ n, now - timestamp n < ONE_DAY) notifications.

End UpdateHandler.

(** ** WebSocketManager: connections per task (jira_webhooks.md) *)

Module WebSocketManager.

Inductive Error := KeyError.

(** [connect(task_id, websocket)], after the socket was accepted; a
    socket is known by its identity. *)
Definition connect (task_id : string) (websocket : nat)
    (active_connections : gmap string (gset nat)) : gmap string (gset nat) :=
  let active_connections :=
    match active_connections !! task_id with
    | None => <[task_id := ∅]> active_connections
    | Some _ => active_connections
    end in
  <[task_id := default ∅ (active_connections !! task_id) ∪ {[websocket]}]>
    active_connections.

(** [disconnect(task_id, websocket)]: the dictionary lookup and
    [set.remove] raise [KeyError] before anything is changed. *)
Definition disconnect (task_id : string) (websocket : nat)
    (active_connections : gmap string (gset nat))
    : Error + gmap string (gset nat) :=
  match active_connections !! task_id with
  | None => inl KeyError
  | Some connections =>
      if decide (websocket ∈ connections) then
        let connections := connections ∖ {[websocket]} in
        if decide (connections = ∅)
        then inr (delete task_id active_connections)
        else inr (<[task_id := connections]> active_connections)
      else inl KeyError
  end.

(** [broadcast_update(task_id, message)]: the sockets the message is
    sent to. *)
Definition broadcast_update (task_id : string)
    (active_connections : gmap string (gset nat)) : gset nat :=
  match active_connections !! task_id with
  | None => ∅
  | Some connections => connections
  end.

(** No task is kept with an empty set of connections. *)
Definition no_empty_set (active_connections : gmap string (gset nat)) : Prop :=
  ∀ task_id connections,
    active_connections !! task_id = Some connections → connections ≠ ∅.

End WebSocketManager.

(** ** BigQueryService: saving the current URL (background.js) *)

Module BigQueryService.

Definition PROJECT_ID : string := "your-project-id".
Definition DATASET_ID : string := "url_saver".
Definition TABLE_ID : string := "saved_urls".

(** A tab as [chrome.tabs.query] lists it. *)
Module Tab.
Record t := { url : string; title : string }.
End Tab.

Record UrlData := {
  url : string;
  title : string;
  saved_timestamp : string;
  user_id : string
}.

(** The call of [fetch]: the endpoint and the options; the body is
    kept as the rows it serializes. *)
Record Request := {
  endpoint : string;
  method : string;
  authorization : string;
  contentType : string;
  rows : list UrlData
}.

(** [fetch] rejects with an error that has a message, or resolves to a
    response that is [ok] or not. *)
Inductive FetchResult :=
| Rejected (message : string)
| Responded (ok : bool).

(** What the browser and the network answer: the tabs the query
    lists, the clock as an ISO string, the access token of the stored
    credentials ([None] when [bigquery_credentials] is not stored), the
    outcome of [fetch], and the message of the [TypeError] the engine
    throws on a property read of [undefined]. *)
Record Env := {
  tabs : list Tab.t;
  toISOString : string;
  access_token : option string;
  fetch : Request → FetchResult;
  typeErrorMessage : string
}.

(** What [sendResponse] is called with. *)
Record Response := {
  success : bool;
  message : option string;
  error : option string
}.

(** [getAccessToken()]; [inl] carries the message of the error
    thrown. *)
Definition getAccessToken (env : Env) : string + string :=
  match access_token env with
  | None => inl "BigQuery credentials not found"
  | Some token => inr token
  end.

(** [saveUrlToBigQuery(urlData)]: the requests sent, and the outcome. *)
Definition saveUrlToBigQuery (env : Env) (urlData : UrlData)
    : list Request * (string + unit) :=
  match getAccessToken env with
  | inl message => ([], inl message)
  | inr accessToken =>
      let endpoint :=
        "https://bigquery.googleapis.com/bigquery/v2/projects/" +:+ PROJECT_ID
        +:+ "/datasets/" +:+ DATASET_ID +:+ "/tables/" +:+ TABLE_ID
        +:+ "/insertAll" in
      let request :=
        {| endpoint := endpoint; method := "POST";
           authorization := "Bearer " +:+ accessToken;
           contentType := "application/json";
           rows := [urlData] |} in
      match fetch env request with
      | Rejected message => ([request], inl message)
      | Responded ok =>
          if negb ok then ([request], inl "Failed to save URL to BigQuery")
          else ([request], inr ())
      end
  end.

(** [handleSaveUrl(sendResponse)]: the requests sent, and the response
    handed to [sendResponse].  With no tab listed, [tab] is [undefined]
    and reading [tab.url] throws. *)
Definition handleSaveUrl (env : Env) : list Request * Response :=
  match tabs env with
  | [] =>
      ([], {| success := false; message := None;
              error := Some (typeErrorMessage env) |})
  | tab :: _ =>
      let urlData :=
        {| url := Tab.url tab; title := Tab.title tab;
           saved_timestamp := toISOString env;
           user_id := "default_user" |} in
      match saveUrlToBigQuery env urlData with
      | (requests, inr _) =>
          (requests, {| success := true;
                        message := Some "URL saved successfully";
                        error := None |})
      | (requests, inl message) =>
          (requests, {| success := false; message := None;
                        error := Some message |})
      end
  end.

End BigQueryService.

(** ** The record of a notification manager

    What has reached the sink followed by what still waits, with the
    messages blanked (a merge rewrites the message of a queued entry and
    nothing else of it). *)

Definition skeleton (n : NotificationManager.Notification)
    : NotificationManager.Notification :=
  NotificationManager.set_message "" n.

Definition history (nm : NotificationManager.t)
    : list NotificationManager.Notification :=
  skeleton <$> (NotificationManager.shown nm ++
                NotificationManager.notificationQueue nm).

(** ** Sample inputs

    Stand-ins for the methods that are not part of the sources, and
    concrete states and updates, on which the engine is evaluated. *)

(** A stand-in for the methods that are not part of the sources, to
    evaluate the engine on concrete inputs: the document is the status
    text itself, and an empty document does not parse. *)
Definition sample_parseXML (xmlText : string) : XMLManager.Error + XMLManager.TaskData :=
  if decide (xmlText = "") then inl XMLManager.ParseError
  else inr {| XMLManager.status := xmlText; XMLManager.assignee := "";
              XMLManager.priority := ""; XMLManager.resolution := "";
              XMLManager.comments := [] |}.

Definition sample_handleFetchError (xm : XMLManager.t) (taskUrl : string)
    (error : XMLManager.Error) : XMLManager.t :=
  XMLManager.set_failedRequests
    (<[taskUrl := default 0 (XMLManager.failedRequests xm !! taskUrl) + 1]>
       (XMLManager.failedRequests xm)) xm.

Definition sample_xml_helpers : XMLManager.Helpers :=
  {| XMLManager.parseXML := sample_parseXML;
     XMLManager.convertToXmlUrl := λ taskUrl, taskUrl +:+ ".xml";
     XMLManager.handleFetchError := sample_handleFetchError |}.

Definition to_do : XMLManager.TaskData :=
  {| XMLManager.status := "To Do"; XMLManager.assignee := "";
     XMLManager.priority := ""; XMLManager.resolution := "";
     XMLManager.comments := [] |}.

Definition in_progress : XMLManager.TaskData :=
  {| XMLManager.status := "In Progress"; XMLManager.assignee := "";
     XMLManager.priority := ""; XMLManager.resolution := "";
     XMLManager.comments := [] |}.

Definition sample_net (xmlUrl : string) : option XMLManager.Response :=
  if decide (xmlUrl = "https://jira.company.com/browse/PROJECT-123.xml")
  then Some {| XMLManager.ok := true; XMLManager.http_status := 200;
               XMLManager.text := "To Do" |}
  else None.

(** A burst of updates, one per task, all at the same instant. *)
Fixpoint ticket (k : nat) : string :=
  match k with
  | O => "T"
  | S k => "T" +:+ ticket k
  end.

Definition ticket_update (k : nat) : Update.t :=
  {| Update.taskKey := ticket k;
     Update.changes := {| Update.type := "status"; Update.body := "" |} |}.

Definition burst (n : nat) : list NotificationManager.Event :=
  (λ k, NotificationManager.Enqueue (ticket_update k) 0) <$> seq 0 n.

(** A stand-in for the text builders that are not part of the
    sources, to evaluate the queue on concrete inputs. *)
Definition sample_notification_helpers : NotificationManager.Helpers :=
  {| NotificationManager.createTitle :=
       λ update, "Update in " +:+ Update.taskKey update;
     NotificationManager.createMessage :=
       λ update, Update.body (Update.changes update);
     NotificationManager.createGroupMessage :=
       λ similar notification,
         NotificationManager.message similar +:+ "; " +:+
         NotificationManager.message notification |}.

Definition status_update (taskKey body : string) : Update.t :=
  {| Update.taskKey := taskKey;
     Update.changes := {| Update.type := "status"; Update.body := body |} |}.

(** A manager with the grouping preference turned off. *)
Definition ungrouped : NotificationManager.t :=
  NotificationManager.set_preferences
    {| NotificationManager.enabled := true;
       NotificationManager.sound := false;
       NotificationManager.grouping := false |}
    NotificationManager.constructor.

(** A fresh manager after an update for another task (shown at once,
    which starts the loop) and a first update for PROJECT-123, which
    waits in the queue. *)
Definition one_queued : NotificationManager.t :=
  @NotificationManager.run sample_notification_helpers
    NotificationManager.constructor
    [NotificationManager.Enqueue (status_update "PROJECT-7" "Assigned to ann") 0;
     NotificationManager.Enqueue
       (status_update "PROJECT-123" "Status changed to In Progress") 1000].

Definition queued_first : NotificationManager.Notification :=
  {| NotificationManager.id := 1000;
     NotificationManager.taskKey := "PROJECT-123";
     NotificationManager.title := "Update in PROJECT-123";
     NotificationManager.message := "Status changed to In Progress";
     NotificationManager.type := "status";
     NotificationManager.timestamp := 1000;
     NotificationManager.groupId := "PROJECT-123" |}.

(** A stand-in for the methods of [TaskManager] that are not part of
    the sources, to evaluate the loop on concrete inputs. *)
Definition sample_task_helpers : TaskManager.Helpers :=
  {| TaskManager.extractTaskId :=
       λ taskUrl, String.substring 32 (String.length taskUrl - 32) taskUrl;
     TaskManager.validateTask :=
       λ net taskUrl, bool_decide (is_Some (net (taskUrl +:+ ".xml")));
     TaskManager.handleChanges := λ tm taskId result now, tm;
     TaskManager.terminal := λ status, bool_decide (status = "completed") |}.

Definition task_123 : TaskManager.Task :=
  {| TaskManager.url := "https://jira.company.com/browse/PROJECT-123";
     TaskManager.added := 1709900000000;
     TaskManager.lastCheck := Some 1710000000000;
     TaskManager.status := "active";
     TaskManager.lastChange := Some 1710000000000;
     TaskManager.lastValues := Some to_do;
     TaskManager.errorCount := 0 |}.

Definition persisted_123 : gmap string TaskManager.Task :=
  {["PROJECT-123" := task_123]}.

(** The remote side is down: every request is rejected. *)
Definition net_down (xmlUrl : string) : option XMLManager.Response := None.

(** A manager with notifications turned off. *)
Definition muted : NotificationManager.t :=
  NotificationManager.set_preferences
    {| NotificationManager.enabled := false;
       NotificationManager.sound := false;
       NotificationManager.grouping := true |}
    NotificationManager.constructor.

(** A task manager over the sample store in which the snapshot of
    PROJECT-123 is cached. *)
Definition tracking_123 : TaskManager.t :=
  TaskManager.set_xmlManager
    (XMLManager.set_cache
       {["https://jira.company.com/browse/PROJECT-123" := to_do]}
       XMLManager.constructor)
    (TaskManager.constructor persisted_123).






(** * Properties *)

(** ** The poll interval *)

Section PollingManagerFacts.
Import PollingManager.

Lemma constructed_constructor : constructed constructor.
Proof. reflexivity. Qed.

Lemma constructed_set_lastUpdateTimes m pm :
  constructed pm → constructed (set_lastUpdateTimes m pm).
Proof. done. Qed.

Lemma constructed_set_errorCounts m pm :
  constructed pm → constructed (set_errorCounts m pm).
Proof. done. Qed.

Lemma backoff_lower (k : Z) : 0 < k → 60000 ≤ 30000 * 2 ^ k.
Proof.
  intros Hk.
  assert (2 ^ 1 ≤ 2 ^ k) by (apply Z.pow_le_mono_r; lia).
  change (2 ^ 1) with 2 in *. lia.
Qed.

Lemma backoff_saturates (k : Z) :
  5 ≤ k → Z.min (30000 * 2 ^ k) 900000 = 900000.
Proof.
  intros Hk.
  assert (2 ^ 5 ≤ 2 ^ k) by (apply Z.pow_le_mono_r; lia).
  change (2 ^ 5) with 32 in *. lia.
Qed.

Example getTaskInterval_fresh :
  getTaskInterval constructor "PROJECT-123" 1710084600000 = 30000.
Proof. reflexivity. Qed.

Example getTaskInterval_active_tier :
  getTaskInterval
    (set_lastUpdateTimes {["PROJECT-123" := 1710000000000]} constructor)
    "PROJECT-123" 1710000060000 = 30000.
Proof. reflexivity. Qed.

Example getTaskInterval_normal_tier :
  getTaskInterval
    (set_lastUpdateTimes {["PROJECT-123" := 1710000000000]} constructor)
    "PROJECT-123" 1710007200000 = 300000.
Proof. reflexivity. Qed.

Example getTaskInterval_idle_tier :
  getTaskInterval
    (set_lastUpdateTimes {["PROJECT-123" := 1710000000000]} constructor)
    "PROJECT-123" 1710086400000 = 900000.
Proof. reflexivity. Qed.

Example getTaskInterval_one_error :
  getTaskInterval
    (set_errorCounts {["PROJECT-123" := 1]} constructor)
    "PROJECT-123" 1710086400000 = 60000.
Proof. reflexivity. Qed.

(** The error branch: with a positive counter the interval is the
    capped backoff, whatever the update times and the clock are. *)
Lemma getTaskInterval_errors pm taskId now :
  0 < errorCount pm taskId →
  getTaskInterval pm taskId now
  = Z.min (pollingInterval pm * 2 ^ errorCount pm taskId) 900000.
Proof.
  intros Hk. unfold getTaskInterval.
  by rewrite bool_decide_eq_true_2.
Qed.

(** The other branches give one of the three tier values or the base
    interval. *)
Lemma getTaskInterval_no_errors pm taskId now :
  ¬ 0 < errorCount pm taskId →
  getTaskInterval pm taskId now ∈
    [pollingInterval pm; 30000; 300000; 900000].
Proof.
  intros Hk. unfold getTaskInterval.
  rewrite bool_decide_eq_false_2 by done.
  destruct (falsy _); [set_solver|].
  repeat case_bool_decide; set_solver.
Qed.

(** C1.  For every task of a polling manager as its constructor builds
    it (base interval thirty seconds), at every instant,
    [getTaskInterval] lies between thirty seconds and fifteen minutes,
    in every branch. *)
Theorem getTaskInterval_range (pm : PollingManager.t) (taskId : string) (now : Z) :
  constructed pm →
  30000 ≤ getTaskInterval pm taskId now ≤ 900000.
Proof.
  intros Hc. red in Hc.
  destruct (decide (0 < errorCount pm taskId)) as [Hk|Hk].
  - rewrite getTaskInterval_errors, Hc by done.
    pose proof (backoff_lower _ Hk). lia.
  - pose proof (getTaskInterval_no_errors pm taskId now Hk) as Hin.
    rewrite Hc in Hin.
    repeat (apply elem_of_cons in Hin as [->|Hin]; [lia|]).
    by apply elem_of_nil in Hin.
Qed.

(** The range, for a task with seven errors in a row. *)
Lemma getTaskInterval_range_witness :
  30000 ≤ getTaskInterval
            (set_errorCounts {["PROJECT-123" := 7]} constructor)
            "PROJECT-123" 1710086400000 ≤ 900000.
Proof. apply getTaskInterval_range. reflexivity. Defined.

(** C2.  A task whose error counter is [k > 0] is polled after
    [min (30s * 2^k, 15min)]; the value does not depend on the recorded
    update times nor on the clock, and for [k = 3] it is eight times
    the base interval. *)
Theorem getTaskInterval_backoff (pm : PollingManager.t) (taskId : string)
    (now k : Z) :
  constructed pm →
  errorCounts pm !! taskId = Some k →
  0 < k →
  getTaskInterval pm taskId now = Z.min (30000 * 2 ^ k) 900000 ∧
  (∀ (m : gmap string Z) (now' : Z),
     getTaskInterval (set_lastUpdateTimes m pm) taskId now'
     = getTaskInterval pm taskId now) ∧
  (k = 3 → getTaskInterval pm taskId now = 30000 * 8).
Proof.
  intros Hc Hget Hk.
  assert (Hcount : errorCount pm taskId = k) by (unfold errorCount; by rewrite Hget).
  assert (Heq : getTaskInterval pm taskId now = Z.min (30000 * 2 ^ k) 900000).
  { rewrite getTaskInterval_errors by lia. by rewrite Hcount, Hc. }
  split_and!.
  - done.
  - intros m now'. rewrite Heq.
    rewrite getTaskInterval_errors by (cbn; unfold errorCount in *; cbn; lia).
    unfold errorCount in *. cbn. by rewrite Hget, Hc.
  - intros ->. rewrite Heq. reflexivity.
Qed.

(** Three errors in a row and a change one second ago: four minutes. *)
Lemma getTaskInterval_backoff_witness :
  getTaskInterval
    (set_lastUpdateTimes {["PROJECT-123" := 1710086399000]}
       (set_errorCounts {["PROJECT-123" := 3]} constructor))
    "PROJECT-123" 1710086400000 = 240000.
Proof.
  pose proof (getTaskInterval_backoff
    (set_lastUpdateTimes {["PROJECT-123" := 1710086399000]}
       (set_errorCounts {["PROJECT-123" := 3]} constructor))
    "PROJECT-123" 1710086400000 3) as Hb.
  destruct Hb as [Hb _]; [reflexivity|reflexivity|lia|].
  exact Hb.
Defined.

End PollingManagerFacts.

(** ** Fetch and diff *)

Section DetectChangesFacts.
Import XMLManager.

Lemma check_field_same oldData newData changes field :
  get oldData field = get newData field →
  check_field oldData newData changes field = changes.
Proof.
  intros Heq. unfold check_field.
  by rewrite bool_decide_eq_false_2 by (intros Hne; by apply Hne).
Qed.

Lemma check_field_newComments oldData newData changes field :
  newComments (details (check_field oldData newData changes field))
  = newComments (details changes).
Proof. unfold check_field. by case_bool_decide. Qed.

Lemma check_field_isNew oldData newData changes field :
  isNew (details (check_field oldData newData changes field))
  = isNew (details changes).
Proof. unfold check_field. by case_bool_decide. Qed.

(** A flag that is set stays set through the field checks. *)
Lemma check_fields_hasChanges oldData newData names changes :
  hasChanges changes = true →
  hasChanges (foldl (check_field oldData newData) changes names) = true.
Proof.
  revert changes. induction names as [|field names IH]; intros changes Hc; [done|].
  cbn. apply IH. unfold check_field. by case_bool_decide.
Qed.

(** The field checks leave the flag down exactly when no walked field
    differs. *)
Lemma check_fields_quiet oldData newData names changes :
  hasChanges (foldl (check_field oldData newData) changes names) = false →
  hasChanges changes = false ∧
  Forall (λ field, get oldData field = get newData field) names.
Proof.
  revert changes. induction names as [|field names IH]; intros changes Hq.
  - by split.
  - cbn in Hq. apply IH in Hq as [Hq Hall].
    unfold check_field in Hq. case_bool_decide as Hne; [done|].
    split; [done|]. constructor; [|done].
    destruct (decide (get oldData field = get newData field)); [done|].
    by destruct Hne.
Qed.

Lemma check_fields_same oldData newData names changes :
  Forall (λ field, get oldData field = get newData field) names →
  foldl (check_field oldData newData) changes names = changes.
Proof.
  revert changes. induction names as [|field names IH]; intros changes Hall; [done|].
  inversion Hall; subst. cbn. rewrite check_field_same by done. by apply IH.
Qed.

Lemma check_comments_same oldData newData changes :
  (length (comments newData) ≤ length (comments oldData))%nat →
  check_comments oldData newData changes = changes.
Proof.
  intros Hle. unfold check_comments.
  rewrite bool_decide_eq_false_2; [done | lia].
Qed.

(** The diff finds no change exactly when the four fields agree and
    the comment list has not grown. *)
Lemma detectChanges_quiet oldData newData :
  hasChanges (detectChanges (Some oldData) newData) = false ↔
  Forall (λ field, get oldData field = get newData field)
    ["status"; "assignee"; "priority"; "resolution"] ∧
  (length (comments newData) ≤ length (comments oldData))%nat.
Proof.
  unfold detectChanges. split.
  - intros Hq. unfold check_comments in Hq.
    case_bool_decide as Hlen; [done|].
    apply check_fields_quiet in Hq as [_ Hall]. split; [done | lia].
  - intros [Hall Hlen].
    rewrite check_fields_same by done. by rewrite check_comments_same.
Qed.

Lemma detectChanges_same data :
  hasChanges (detectChanges (Some data) data) = false.
Proof.
  apply detectChanges_quiet. split; [|done].
  repeat constructor.
Qed.

Example detectChanges_status :
  detectChanges (Some to_do) in_progress
  = {| hasChanges := true;
       details := {| isNew := false;
                     fields := {["status" := {| from := "To Do"; to := "In Progress" |}]};
                     newComments := None |} |}.
Proof. reflexivity. Qed.

(** C6.  When the new comment list is strictly longer than the old
    one, the diff raises [hasChanges] and reports as [newComments] the
    new list without its first [length old] entries: a list of
    [length new - length old] entries, in their order in the new list
    (the new list is its first [length old] entries followed by
    [newComments]); when the new list is the old one with entries
    appended, [newComments] is the appended entries. *)
Theorem detectChanges_newComments (oldData newData : TaskData) :
  (length (comments oldData) < length (comments newData))%nat →
  ∃ tail : list string,
    newComments (details (detectChanges (Some oldData) newData)) = Some tail ∧
    hasChanges (detectChanges (Some oldData) newData) = true ∧
    tail = drop (length (comments oldData)) (comments newData) ∧
    length tail = (length (comments newData) - length (comments oldData))%nat ∧
    comments newData = take (length (comments oldData)) (comments newData) ++ tail ∧
    (∀ appended : list string,
       comments newData = comments oldData ++ appended → tail = appended).
Proof.
  intros Hlen.
  exists (drop (length (comments oldData)) (comments newData)).
  unfold detectChanges, check_comments.
  rewrite bool_decide_eq_true_2 by done. cbn [newComments details hasChanges].
  split_and!; try done.
  - by rewrite length_drop.
  - by rewrite take_drop.
  - intros appended ->. by rewrite drop_app_length.
Qed.

(** A comment list that grows from two to five entries. *)
Lemma detectChanges_newComments_witness :
  newComments (details (detectChanges
    (Some {| status := "Open"; assignee := "ann"; priority := "High";
             resolution := ""; comments := ["c1"; "c2"] |})
    {| status := "Open"; assignee := "ann"; priority := "High";
       resolution := ""; comments := ["c1"; "c2"; "c3"; "c4"; "c5"] |}))
  = Some ["c3"; "c4"; "c5"].
Proof.
  destruct (detectChanges_newComments
    {| status := "Open"; assignee := "ann"; priority := "High";
       resolution := ""; comments := ["c1"; "c2"] |}
    {| status := "Open"; assignee := "ann"; priority := "High";
       resolution := ""; comments := ["c1"; "c2"; "c3"; "c4"; "c5"] |})
    as (tail & Hnew & _ & Htail & _).
  - cbn. lia.
  - rewrite Hnew, Htail. reflexivity.
Defined.

End DetectChangesFacts.

Section XMLManagerFacts.
Import XMLManager.
Context `{Helpers}.

(** What [processXMLData] does once the document has parsed. *)
Lemma processXMLData_parsed xm xmlText taskUrl taskData :
  parseXML xmlText = inr taskData →
  processXMLData xm xmlText taskUrl =
    inr (if hasChanges (detectChanges (cache xm !! taskUrl) taskData)
         then set_cache (<[taskUrl := taskData]> (cache xm)) xm
         else xm,
         {| changed := hasChanges (detectChanges (cache xm !! taskUrl) taskData);
            changes := details (detectChanges (cache xm !! taskUrl) taskData);
            data := taskData |}).
Proof. intros Hp. unfold processXMLData. by rewrite Hp. Qed.

(** A document that does not parse leaves the manager as it is. *)
Lemma processXMLData_parse_error xm xmlText taskUrl error :
  parseXML xmlText = inl error →
  processXMLData xm xmlText taskUrl = inl error.
Proof. intros Hp. unfold processXMLData. by rewrite Hp. Qed.

(** Against the snapshot a cycle has just left in the cache, the same
    record shows no change. *)
Lemma detectChanges_after xm taskUrl taskData :
  hasChanges
    (detectChanges
       (cache (if hasChanges (detectChanges (cache xm !! taskUrl) taskData)
               then set_cache (<[taskUrl := taskData]> (cache xm)) xm
               else xm) !! taskUrl) taskData) = false.
Proof.
  destruct (hasChanges (detectChanges (cache xm !! taskUrl) taskData)) eqn:Hc.
  - cbn. rewrite lookup_insert_eq. apply detectChanges_same.
  - done.
Qed.

(** A cycle whose response is a success, through [fetchTaskXML]. *)
Lemma fetchTaskXML_ok net xm taskUrl response :
  net (convertToXmlUrl taskUrl) = Some response →
  ok response = true →
  fetchTaskXML net xm taskUrl =
    match processXMLData
            (set_failedRequests (delete taskUrl (failedRequests xm)) xm)
            (text response) taskUrl with
    | inl error =>
        (handleFetchError
           (set_failedRequests (delete taskUrl (failedRequests xm)) xm)
           taskUrl error, inl error)
    | inr (xm, result) => (xm, inr result)
    end.
Proof. intros Hnet Hok. unfold fetchTaskXML. by rewrite Hnet, Hok. Qed.

(** C3.  A cycle whose document parses replaces the cached snapshot of
    the task by the new one exactly when the diff reports a change, and
    a first fetch (nothing cached) always does; with no change the
    manager is left as it was.  A second cycle over the same document
    reports no change and leaves the manager, hence the cached
    snapshot, as the first cycle left it; so do two calls of
    [fetchTaskXML] in a row that receive this document. *)
Theorem processXMLData_cache (xm : XMLManager.t) (xmlText taskUrl : string)
    (taskData : TaskData) :
  parseXML xmlText = inr taskData →
  ∃ (xm' : XMLManager.t) (result result' : Result),
    processXMLData xm xmlText taskUrl = inr (xm', result) ∧
    changed result = hasChanges (detectChanges (cache xm !! taskUrl) taskData) ∧
    (changed result = true →
       xm' = set_cache (<[taskUrl := taskData]> (cache xm)) xm ∧
       cache xm' !! taskUrl = Some taskData) ∧
    (changed result = false → xm' = xm) ∧
    (cache xm !! taskUrl = None → changed result = true) ∧
    processXMLData xm' xmlText taskUrl = inr (xm', result') ∧
    changed result' = false ∧
    (∀ (net : string → option Response) (response : Response),
       net (convertToXmlUrl taskUrl) = Some response →
       ok response = true →
       text response = xmlText →
       ∃ (xm1 : XMLManager.t) (first second : Result),
         fetchTaskXML net xm taskUrl = (xm1, inr first) ∧
         cache xm1 = cache xm' ∧
         fetchTaskXML net xm1 taskUrl = (xm1, inr second) ∧
         changed second = false).
Proof.
  intros Hp.
  eexists _, _, _.
  split; [by apply processXMLData_parsed|].
  cbn [changed].
  split; [done|].
  split.
  { intros ->. split; [done|]. cbn. by rewrite lookup_insert_eq. }
  split; [by intros ->|].
  split; [by intros ->|].
  rewrite (processXMLData_parsed _ _ _ _ Hp).
  rewrite detectChanges_after. split; [reflexivity|]. split; [reflexivity|].
  intros net response Hnet Hok Htext. subst xmlText.
  rewrite (fetchTaskXML_ok _ _ _ _ Hnet Hok).
  rewrite (processXMLData_parsed _ _ _ _ Hp).
  eexists _, _, _. split; [reflexivity|].
  cbn [cache set_failedRequests].
  split; [by destruct (hasChanges _)|].
  rewrite (fetchTaskXML_ok _ _ _ _ Hnet Hok).
  set (cleared := set_failedRequests _ xm).
  assert (∀ xm1, (xm1 = cleared ∨
                  xm1 = set_cache (<[taskUrl := taskData]> (cache cleared)) cleared) →
          set_failedRequests (delete taskUrl (failedRequests xm1)) xm1 = xm1)
    as Hclear.
  { intros xm1 [-> | ->]; subst cleared; unfold set_failedRequests, set_cache;
      cbn; by rewrite delete_delete_eq. }
  rewrite Hclear by (destruct (hasChanges _); [by right | by left]).
  rewrite (processXMLData_parsed _ _ _ _ Hp).
  change (cache xm) with (cache cleared).
  rewrite detectChanges_after. split; reflexivity.
Qed.

(** C5 as the code has it.  For a task with nothing cached, a cycle
    whose fetch succeeds and whose document parses returns [changed =
    true] and the details [{isNew: true}], with no field delta and no
    comment list; the full new snapshot is returned next to the details,
    in the [data] field of the result, and is cached. *)
Theorem fetchTaskXML_first (net : string → option Response) (xm : XMLManager.t)
    (taskUrl : string) (response : Response) (taskData : TaskData) :
  cache xm !! taskUrl = None →
  net (convertToXmlUrl taskUrl) = Some response →
  ok response = true →
  parseXML (text response) = inr taskData →
  ∃ xm' : XMLManager.t,
    fetchTaskXML net xm taskUrl =
      (xm', inr {| changed := true;
                   changes := {| isNew := true; fields := ∅; newComments := None |};
                   data := taskData |}) ∧
    cache xm' = <[taskUrl := taskData]> (cache xm) ∧
    cache xm' !! taskUrl = Some taskData.
Proof.
  intros Hnone Hnet Hok Hp.
  rewrite (fetchTaskXML_ok _ _ _ _ Hnet Hok).
  rewrite (processXMLData_parsed _ _ _ _ Hp).
  cbn [cache set_failedRequests]. rewrite Hnone. cbn.
  eexists. split; [reflexivity|]. cbn.
  split; [done | by rewrite lookup_insert_eq].
Qed.

End XMLManagerFacts.

(** A first cycle that caches the record, then the same document again. *)
Lemma processXMLData_cache_witness :
  ∃ xm' result,
    @XMLManager.processXMLData sample_xml_helpers XMLManager.constructor "To Do"
      "https://jira.company.com/browse/PROJECT-123" = inr (xm', result) ∧
    XMLManager.changed result = true ∧
    XMLManager.cache xm' !! "https://jira.company.com/browse/PROJECT-123" = Some to_do ∧
    ∃ result',
      @XMLManager.processXMLData sample_xml_helpers xm' "To Do"
        "https://jira.company.com/browse/PROJECT-123" = inr (xm', result') ∧
      XMLManager.changed result' = false.
Proof.
  destruct (@processXMLData_cache sample_xml_helpers XMLManager.constructor "To Do"
              "https://jira.company.com/browse/PROJECT-123" to_do)
    as (xm' & result & result' & H1 & H2 & H3 & _ & H5 & H6 & H7 & _).
  - reflexivity.
  - exists xm', result.
    split; [exact H1|].
    split; [apply H5; reflexivity|].
    split; [apply H3, H5; reflexivity|].
    exists result'. split; [exact H6 | exact H7].
Defined.

(** The first fetch of PROJECT-123, which returns the status To Do. *)
Lemma fetchTaskXML_first_witness :
  ∃ xm',
    @XMLManager.fetchTaskXML sample_xml_helpers sample_net XMLManager.constructor
      "https://jira.company.com/browse/PROJECT-123"
    = (xm', inr {| XMLManager.changed := true;
                   XMLManager.changes :=
                     {| XMLManager.isNew := true; XMLManager.fields := ∅;
                        XMLManager.newComments := None |};
                   XMLManager.data := to_do |}) ∧
    XMLManager.cache xm' !! "https://jira.company.com/browse/PROJECT-123"
    = Some to_do.
Proof.
  destruct (@fetchTaskXML_first sample_xml_helpers sample_net
              XMLManager.constructor
              "https://jira.company.com/browse/PROJECT-123"
              {| XMLManager.ok := true; XMLManager.http_status := 200;
                 XMLManager.text := "To Do" |} to_do)
    as (xm' & Hf & _ & Hc); try reflexivity.
  exists xm'. split; [exact Hf | exact Hc].
Defined.

(** C5 as stated fails: the details of a first diff are [{isNew:
    true}] whatever the new snapshot is, so two different snapshots give
    the same details, and no function recovers the snapshot from the
    details. *)
Lemma first_details_carry_no_snapshot :
  XMLManager.details (XMLManager.detectChanges None to_do)
  = {| XMLManager.isNew := true; XMLManager.fields := ∅;
       XMLManager.newComments := None |} ∧
  XMLManager.details (XMLManager.detectChanges None to_do)
  = XMLManager.details (XMLManager.detectChanges None in_progress) ∧
  to_do ≠ in_progress ∧
  ¬ ∃ recover : XMLManager.Details → XMLManager.TaskData,
      ∀ data : XMLManager.TaskData,
        recover (XMLManager.details (XMLManager.detectChanges None data)) = data.
Proof.
  split_and!; [reflexivity | reflexivity | discriminate |].
  intros [recover Hrecover].
  pose proof (Hrecover to_do) as Hto_do.
  pose proof (Hrecover in_progress) as Hin_progress.
  change (XMLManager.detectChanges None in_progress)
    with (XMLManager.detectChanges None to_do) in Hin_progress.
  rewrite Hto_do in Hin_progress. discriminate Hin_progress.
Qed.

(** ** The notification queue *)

Section QueueFacts.
Import NotificationManager.

Lemma window_free_nil : window_free [].
Proof. intros i j a b _ Hi. by rewrite lookup_nil in Hi. Qed.

(** [window_free] reads group keys and timestamps only. *)
Lemma window_free_stamps q q' :
  stamp <$> q = stamp <$> q' → window_free q → window_free q'.
Proof.
  intros Hst Hq i j a b Hij Ha Hb Hg.
  assert (∀ k x, q' !! k = Some x → ∃ y, q !! k = Some y ∧ stamp y = stamp x)
    as Hback.
  { intros k x Hk.
    assert ((stamp <$> q) !! k = Some (stamp x)) as Hl
      by (rewrite Hst, list_lookup_fmap, Hk; done).
    apply list_lookup_fmap_Some in Hl as (y & ? & ?). eauto. }
  destruct (Hback _ _ Ha) as (a0 & Ha0 & Hsa).
  destruct (Hback _ _ Hb) as (b0 & Hb0 & Hsb).
  unfold stamp in *. simplify_eq.
  assert (groupId a0 = groupId b0) as Hg0 by congruence.
  pose proof (Hq i j a0 b0 Hij Ha0 Hb0 Hg0).
  by replace (timestamp b) with (timestamp b0);
     replace (timestamp a) with (timestamp a0).
Qed.

Lemma window_free_merge q i first m :
  q !! i = Some first →
  window_free q → window_free (<[i := set_message m first]> q).
Proof.
  intros Hi. apply window_free_stamps.
  rewrite list_fmap_insert. symmetry. apply list_insert_id.
  by rewrite list_lookup_fmap, Hi.
Qed.

Lemma pushed_length (q : list Notification) n :
  (length (q ++ [n]) ≤ length q + 1)%nat ∧
  (length (tail (q ++ [n])) ≤ length q + 1)%nat.
Proof.
  assert (length (q ++ [n]) = length q + 1)%nat as Hlen
    by (rewrite List.length_app; cbn; lia).
  split; [lia|]. destruct (q ++ [n]); cbn in *; lia.
Qed.

Lemma window_free_tail n q : window_free (n :: q) → window_free q.
Proof.
  intros Hq i j a b Hij Ha Hb. by apply (Hq (S i) (S j)); [lia|..].
Qed.

Lemma window_free_push q n :
  window_free q → Forall (λ x, ¬ similar n x) q → window_free (q ++ [n]).
Proof.
  intros Hq Hall i j a b Hij Ha Hb Hg.
  apply lookup_snoc_Some in Ha as [[Hlt Ha]|[-> ->]].
  - apply lookup_snoc_Some in Hb as [[_ Hb]|[-> ->]]; [by apply (Hq i j)|].
    rewrite Forall_lookup in Hall. specialize (Hall _ _ Ha).
    unfold similar in Hall.
    destruct (decide (timestamp b - timestamp a < 300000)); [|lia].
    destruct Hall. done.
  - apply lookup_lt_Some in Hb. rewrite length_app in Hb. cbn in Hb. lia.
Qed.

End QueueFacts.

Section NotificationManagerFacts.
Import NotificationManager.
Context `{Helpers}.

Lemma addNotification_grouped nm update now i first :
  grouping (preferences nm) = true →
  list_find (similar (createNotification update now)) (notificationQueue nm)
  = Some (i, first) →
  addNotification nm update now
  = set_notificationQueue
      (<[i := set_message
               (createGroupMessage first (createNotification update now))
               first]> (notificationQueue nm)) nm.
Proof.
  intros Hg Hfind. unfold addNotification, tryGroupNotification.
  by rewrite Hg, Hfind.
Qed.

Lemma addNotification_pushed nm update now :
  grouping (preferences nm) = false ∨
  list_find (similar (createNotification update now)) (notificationQueue nm)
  = None →
  addNotification nm update now
  = if negb (isProcessing nm)
    then processQueue
           (set_notificationQueue
              (notificationQueue nm ++ [createNotification update now]) nm)
    else set_notificationQueue
           (notificationQueue nm ++ [createNotification update now]) nm.
Proof.
  intros Hcase. unfold addNotification, tryGroupNotification.
  destruct (grouping (preferences nm)); [|done].
  destruct Hcase as [?|Hfind]; [done|]. by rewrite Hfind.
Qed.

Lemma drain_queue nm :
  notificationQueue (drain nm) = tail (notificationQueue nm).
Proof. unfold drain. by destruct (notificationQueue nm) eqn:Hq. Qed.

Lemma drain_preferences nm : preferences (drain nm) = preferences nm.
Proof. unfold drain. by destruct (notificationQueue nm). Qed.

(** The loop hands over the head of the queue and nothing else: first
    in, first out. *)
Lemma drain_fifo nm notification rest :
  notificationQueue nm = notification :: rest →
  notificationQueue (drain nm) = rest ∧
  shown (drain nm) = shown nm ++ [notification].
Proof. intros Hq. unfold drain. by rewrite Hq. Qed.

Lemma processQueue_queue nm :
  notificationQueue (processQueue nm) = notificationQueue nm ∨
  notificationQueue (processQueue nm) = tail (notificationQueue nm).
Proof.
  unfold processQueue. destruct (negb _); [by left|].
  right. by rewrite drain_queue.
Qed.

Lemma processQueue_preferences nm :
  preferences (processQueue nm) = preferences nm.
Proof.
  unfold processQueue. destruct (negb _); [done|]. by rewrite drain_preferences.
Qed.

(** After a push the new entry is the last one of the queue, whether
    or not the push started the loop, provided something was queued
    before. *)
Lemma addNotification_pushed_queue nm update now :
  grouping (preferences nm) = false ∨
  list_find (similar (createNotification update now)) (notificationQueue nm)
  = None →
  notificationQueue (addNotification nm update now)
  = notificationQueue nm ++ [createNotification update now] ∨
  notificationQueue (addNotification nm update now)
  = tail (notificationQueue nm ++ [createNotification update now]).
Proof.
  intros Hcase. rewrite addNotification_pushed by done.
  destruct (negb _); [|by left].
  apply (processQueue_queue (set_notificationQueue _ nm)).
Qed.

Lemma addNotification_preferences nm update now :
  preferences (addNotification nm update now) = preferences nm.
Proof.
  unfold addNotification, tryGroupNotification.
  destruct (grouping _); [|cbn; destruct (negb _); [|done];
                             by rewrite processQueue_preferences].
  destruct (list_find _ _) as [[i first]|]; [done|].
  cbn. destruct (negb _); [|done]. by rewrite processQueue_preferences.
Qed.

Lemma step_preferences nm e : preferences (step nm e) = preferences nm.
Proof.
  destruct e; cbn; [apply addNotification_preferences|].
  destruct (isProcessing nm); [apply drain_preferences | done].
Qed.

Lemma run_preferences nm events : preferences (run nm events) = preferences nm.
Proof.
  revert nm. induction events as [|e events IH]; intros nm; [done|].
  cbn. unfold run in IH. by rewrite IH, step_preferences.
Qed.

(** With grouping on, an enqueue keeps the queue free of same-group
    entries within the window. *)
Lemma addNotification_window_free nm update now :
  grouping (preferences nm) = true →
  window_free (notificationQueue nm) →
  window_free (notificationQueue (addNotification nm update now)).
Proof.
  intros Hg Hq.
  destruct (list_find (similar (createNotification update now))
              (notificationQueue nm)) as [[i first]|] eqn:Hfind.
  - rewrite (addNotification_grouped _ _ _ _ _ Hg Hfind). cbn.
    apply list_find_Some in Hfind as (Hi & _ & _).
    by apply window_free_merge.
  - assert (window_free
              (notificationQueue nm ++ [createNotification update now])) as Hpush
      by (apply window_free_push; [done | by apply (list_find_None _ _)]).
    destruct (addNotification_pushed_queue nm update now) as [-> | ->];
      [by right | done |].
    destruct (notificationQueue nm ++ [createNotification update now]) eqn:E;
      [done | by eapply window_free_tail].
Qed.

Lemma step_window_free nm e :
  grouping (preferences nm) = true →
  window_free (notificationQueue nm) →
  window_free (notificationQueue (step nm e)).
Proof.
  intros Hg Hq. destruct e; cbn; [by apply addNotification_window_free|].
  destruct (isProcessing nm); [|done].
  rewrite drain_queue. destruct (notificationQueue nm); [done|].
  by eapply window_free_tail.
Qed.

Lemma run_window_free nm events :
  grouping (preferences nm) = true →
  window_free (notificationQueue nm) →
  window_free (notificationQueue (run nm events)).
Proof.
  revert nm. induction events as [|e events IH]; intros nm Hg Hq; [done|].
  cbn. apply IH; [by rewrite step_preferences | by apply step_window_free].
Qed.

End NotificationManagerFacts.

Section BurstFacts.
Import NotificationManager.
Context `{Helpers}.

Lemma ticket_length k : String.length (ticket k) = S k.
Proof.
  induction k as [|k IH]; [done|].
  change (ticket (S k)) with ("T" +:+ ticket k).
  assert (∀ s, String.length ("T" +:+ s) = S (String.length s)) as -> by done.
  by rewrite IH.
Qed.

Lemma ticket_inj a b : ticket a = ticket b → a = b.
Proof.
  intros Heq. apply (f_equal String.length) in Heq.
  rewrite !ticket_length in Heq. lia.
Qed.

(** The state after a burst of [S n] updates over a fresh manager: the
    first update went straight to the sink and started the loop, the
    [n] others wait in the queue. *)
Lemma run_burst n :
  run constructor (burst (S n))
  = {| notificationQueue :=
         (λ k, createNotification (ticket_update k) 0) <$> seq 1 n;
       isProcessing := true;
       preferences := preferences constructor;
       shown := [createNotification (ticket_update 0) 0] |}.
Proof.
  induction n as [|n IH]; [reflexivity|].
  unfold burst, run in *. rewrite seq_S, fmap_app, foldl_app, IH. cbn [foldl fmap list_fmap step].
  rewrite addNotification_pushed.
  - cbn [isProcessing negb notificationQueue set_notificationQueue preferences shown].
    by rewrite (seq_S n 1), fmap_app.
  - right. apply (list_find_None _ _).
    cbn [notificationQueue].
    apply Forall_fmap, Forall_forall. intros k Hk [Hkey _].
    cbn [groupId createNotification ticket_update Update.taskKey] in Hkey.
    apply ticket_inj in Hkey. apply in_seq in Hk. lia.
Qed.

End BurstFacts.

Section GroupingFacts.
Import NotificationManager.
Context `{Helpers}.

(** The entry a merge goes to is the first queued one that passes the
    test; in a window-free queue, and with a clock that has not gone
    back since [e] was stamped, it is [e] itself. *)
Lemma first_similar_unique q notification i first e :
  q !! i = Some first →
  similar notification first →
  (∀ j y, q !! j = Some y → (j < i)%nat → ¬ similar notification y) →
  e ∈ q →
  similar notification e →
  window_free q →
  timestamp e ≤ timestamp notification →
  first = e.
Proof.
  intros Hi Hfirst Hmin He Hsim Hfree Hclock.
  apply list_elem_of_lookup in He as [j Hj].
  destruct (lt_eq_lt_dec i j) as [[Hlt| ->]|Hgt].
  - destruct Hfirst as [Hg1 Ht1], Hsim as [Hg2 _].
    assert (groupId first = groupId e) as Hg by congruence.
    pose proof (Hfree i j first e Hlt Hi Hj Hg). lia.
  - congruence.
  - destruct (Hmin j e Hj Hgt Hsim).
Qed.

(** C4 as the code has it.  While the grouping preference is on: an
    update for a task that has an entry [e] in the queue, stamped less
    than five minutes before the update, is merged into the first queued
    entry that passes the test -- that entry's message becomes the
    combined one and the queue keeps its length -- and this entry is [e]
    itself when the queue is window-free and the clock has not gone back;
    and every run of enqueues and loop wake-ups keeps a window-free queue
    window-free. *)
Theorem addNotification_groups (nm : NotificationManager.t) :
  grouping (preferences nm) = true →
  (∀ (update : Update.t) (now : Z) (e : Notification),
     e ∈ notificationQueue nm →
     groupId e = Update.taskKey update →
     now - timestamp e < 300000 →
     ∃ (i : nat) (first : Notification),
       notificationQueue nm !! i = Some first ∧
       similar (createNotification update now) first ∧
       addNotification nm update now
       = set_notificationQueue
           (<[i := set_message
                    (createGroupMessage first (createNotification update now))
                    first]> (notificationQueue nm)) nm ∧
       length (notificationQueue (addNotification nm update now))
       = length (notificationQueue nm) ∧
       (window_free (notificationQueue nm) → timestamp e ≤ now → first = e)) ∧
  (window_free (notificationQueue nm) →
   ∀ events : list Event,
     window_free (notificationQueue (run nm events))).
Proof.
  intros Hg. split.
  - intros update now e He Hkey Hnow.
    assert (similar (createNotification update now) e) as Hsim by done.
    destruct (list_find_elem_of (similar (createNotification update now))
                (notificationQueue nm) e He Hsim) as [[i first] Hfind].
    exists i, first.
    pose proof Hfind as (Hi & Hfirst & Hmin)%list_find_Some.
    rewrite (addNotification_grouped _ _ _ _ _ Hg Hfind).
    split_and!; try done.
    + cbn. by rewrite length_insert.
    + intros Hfree Hclock. by eapply first_similar_unique.
  - intros Hfree events. by apply run_window_free.
Qed.

(** C10, as the code has it.  When an update is merged into the queued
    entry [first] (the first one of its group stamped less than five
    minutes before it), the queue changes at that entry's index only,
    and there only in the message: identifier, task key, title,
    timestamp, type and group key stay, as do the length of the queue,
    every other entry, the processing flag and the sink.  The timestamp
    is not refreshed: a later update stamped five minutes or more after
    [first] fails the grouping test against the merged entry, however
    close it is to the merged update, so it is never merged into it;
    and when no other queued entry groups with it, it is appended as a
    new last entry of the queue.  (With a later entry of its group
    queued, it merges there instead.) *)
Theorem merge_changes_message_only (nm : NotificationManager.t)
    (update : Update.t) (now : Z) (i : nat) (first : Notification) :
  grouping (preferences nm) = true →
  notificationQueue nm !! i = Some first →
  similar (createNotification update now) first →
  (∀ j y, notificationQueue nm !! j = Some y → (j < i)%nat →
          ¬ similar (createNotification update now) y) →
  ∃ merged : Notification,
    notificationQueue (addNotification nm update now) !! i = Some merged ∧
    message merged = createGroupMessage first (createNotification update now) ∧
    id merged = id first ∧ taskKey merged = taskKey first ∧
    title merged = title first ∧ timestamp merged = timestamp first ∧
    type merged = type first ∧ groupId merged = groupId first ∧
    length (notificationQueue (addNotification nm update now))
    = length (notificationQueue nm) ∧
    (∀ j, j ≠ i →
       notificationQueue (addNotification nm update now) !! j
       = notificationQueue nm !! j) ∧
    isProcessing (addNotification nm update now) = isProcessing nm ∧
    shown (addNotification nm update now) = shown nm ∧
    (∀ (update' : Update.t) (now' : Z),
       300000 ≤ now' - timestamp first →
       ¬ similar (createNotification update' now') merged ∧
       ((∀ j y, j ≠ i → notificationQueue nm !! j = Some y →
                ¬ similar (createNotification update' now') y) →
        ∃ front : list Notification,
          notificationQueue
            (addNotification (addNotification nm update now) update' now')
          = front ++ [createNotification update' now'] ∧
          (front = notificationQueue (addNotification nm update now) ∨
           front = tail (notificationQueue (addNotification nm update now))))).
Proof.
  intros Hg Hi Hsim Hmin.
  assert (list_find (similar (createNotification update now))
            (notificationQueue nm) = Some (i, first)) as Hfind
    by (by apply list_find_Some).
  rewrite (addNotification_grouped _ _ _ _ _ Hg Hfind).
  set (merged := set_message _ first).
  pose proof (lookup_lt_Some _ _ _ Hi) as Hlt.
  exists merged. cbn [notificationQueue set_notificationQueue isProcessing shown].
  split_and!; try done.
  - by apply list_lookup_insert_eq.
  - by rewrite length_insert.
  - intros j Hj. by apply list_lookup_insert_ne.
  - intros update' now' Hlate.
    assert (¬ similar (createNotification update' now') merged) as Hanchor.
    { intros [_ Hwin]. cbn in Hwin. lia. }
    split; [done|]. intros Hothers.
    set (nm' := set_notificationQueue _ nm).
    assert (list_find (similar (createNotification update' now'))
              (notificationQueue nm') = None) as Hnone.
    { apply (list_find_None _ _), Forall_lookup. intros j y Hj.
      cbn in Hj. apply list_lookup_insert_Some in Hj as [(-> & <- & _)|[Hne Hj]].
      - done.
      - by eapply Hothers. }
    destruct (addNotification_pushed_queue nm' update' now') as [Hq|Hq];
      [by right| |]; rewrite Hq.
    + eexists. split; [done | by left].
    + exists (tail (notificationQueue nm')). split; [|by right].
      cbn. destruct (<[i:=merged]> (notificationQueue nm)) eqn:E; [|done].
      apply (f_equal length) in E. rewrite length_insert in E. cbn in E. lia.
Qed.

(** C7 as the code has it.  The queue has no bound and nothing is ever
    evicted: an enqueue adds at most one entry; while the loop is
    suspended or notifications are off, an update that is not merged is
    appended and every queued entry stays; entries leave from the front
    only, one per turn of the loop, and go to the sink; and a burst of
    updates for [n + 1] different tasks over a fresh manager leaves [n]
    entries queued, for every [n]. *)
Theorem queue_unbounded :
  (∀ (nm : NotificationManager.t) (update : Update.t) (now : Z),
     (length (notificationQueue (addNotification nm update now))
      ≤ length (notificationQueue nm) + 1)%nat) ∧
  (∀ (nm : NotificationManager.t) (update : Update.t) (now : Z),
     isProcessing nm = true ∨ enabled (preferences nm) = false →
     grouping (preferences nm) = false ∨
     list_find (similar (createNotification update now)) (notificationQueue nm)
     = None →
     notificationQueue (addNotification nm update now)
     = notificationQueue nm ++ [createNotification update now]) ∧
  (∀ (nm : NotificationManager.t) (notification : Notification)
     (rest : list Notification),
     notificationQueue nm = notification :: rest →
     notificationQueue (drain nm) = rest ∧
     shown (drain nm) = shown nm ++ [notification]) ∧
  (∀ n : nat,
     length (notificationQueue (run constructor (burst (S n)))) = n).
Proof.
  split_and!.
  - intros nm update now.
    destruct (grouping (preferences nm)) eqn:Hg.
    + destruct (list_find (similar (createNotification update now))
                  (notificationQueue nm)) as [[i first]|] eqn:Hfind.
      * rewrite (addNotification_grouped _ _ _ _ _ Hg Hfind). cbn.
        rewrite length_insert. lia.
      * destruct (addNotification_pushed_queue nm update now) as [-> | ->];
          [by right|apply pushed_length..].
    + destruct (addNotification_pushed_queue nm update now) as [-> | ->];
        [by left|apply pushed_length..].
  - intros nm update now Hbusy Hcase.
    rewrite addNotification_pushed by done.
    destruct (isProcessing nm) eqn:Hp; [done|].
    destruct Hbusy as [?|Hoff]; [done|].
    unfold processQueue. cbn. by rewrite Hoff.
  - intros nm notification rest. apply drain_fifo.
  - intros n. rewrite run_burst. cbn. by rewrite length_fmap, length_seq.
Qed.

End GroupingFacts.

Example one_queued_queue :
  NotificationManager.notificationQueue one_queued = [queued_first] ∧
  NotificationManager.isProcessing one_queued = true.
Proof. split; reflexivity. Qed.

(** C4 as stated fails: with the grouping preference off, a second
    update for the same task, one second after the first and while the
    first is still queued, takes a second slot; the queue then holds two
    entries of one group within the window. *)
Lemma grouping_off_two_slots :
  NotificationManager.notificationQueue
    (@NotificationManager.run sample_notification_helpers ungrouped
       [NotificationManager.Enqueue (status_update "PROJECT-7" "Assigned to ann") 0;
        NotificationManager.Enqueue
          (status_update "PROJECT-123" "Status changed to In Progress") 1000;
        NotificationManager.Enqueue
          (status_update "PROJECT-123" "Status changed to Done") 2000])
  = [queued_first;
     {| NotificationManager.id := 2000;
        NotificationManager.taskKey := "PROJECT-123";
        NotificationManager.title := "Update in PROJECT-123";
        NotificationManager.message := "Status changed to Done";
        NotificationManager.type := "status";
        NotificationManager.timestamp := 2000;
        NotificationManager.groupId := "PROJECT-123" |}] ∧
  ¬ NotificationManager.window_free
      (NotificationManager.notificationQueue
         (@NotificationManager.run sample_notification_helpers ungrouped
            [NotificationManager.Enqueue
               (status_update "PROJECT-7" "Assigned to ann") 0;
             NotificationManager.Enqueue
               (status_update "PROJECT-123" "Status changed to In Progress") 1000;
             NotificationManager.Enqueue
               (status_update "PROJECT-123" "Status changed to Done") 2000])).
Proof.
  split; [reflexivity|].
  intros Hfree.
  specialize (Hfree 0%nat 1%nat _ _ ltac:(lia) eq_refl eq_refl eq_refl).
  cbn in Hfree. lia.
Qed.

(** A second update for PROJECT-123, one second after the queued one. *)
Lemma addNotification_groups_witness :
  length (NotificationManager.notificationQueue
            (@NotificationManager.addNotification sample_notification_helpers
               one_queued
               (status_update "PROJECT-123" "Status changed to Done") 2000))
  = 1%nat ∧
  NotificationManager.window_free
    (NotificationManager.notificationQueue
       (@NotificationManager.run sample_notification_helpers one_queued
          [NotificationManager.Enqueue
             (status_update "PROJECT-123" "Status changed to Done") 2000;
           NotificationManager.WakeUp])).
Proof.
  destruct (@addNotification_groups sample_notification_helpers one_queued)
    as [Hmerge Hrun]; [reflexivity|].
  split.
  - destruct (Hmerge (status_update "PROJECT-123" "Status changed to Done")
                2000 queued_first)
      as (i & first & _ & _ & _ & Hlen & _).
    + constructor.
    + reflexivity.
    + cbn. lia.
    + rewrite Hlen. reflexivity.
  - apply Hrun. intros i j a b Hij Ha Hb.
    destruct i as [|i]; [|discriminate Ha].
    destruct j as [|j]; [lia | discriminate Hb].
Defined.

(** The merged entry, and a third update five minutes after the first. *)
Lemma merge_changes_message_only_witness :
  NotificationManager.notificationQueue
    (@NotificationManager.addNotification sample_notification_helpers
       one_queued (status_update "PROJECT-123" "Status changed to Done") 2000)
  !! 0%nat
  = Some
      {| NotificationManager.id := 1000;
         NotificationManager.taskKey := "PROJECT-123";
         NotificationManager.title := "Update in PROJECT-123";
         NotificationManager.message :=
           "Status changed to In Progress; Status changed to Done";
         NotificationManager.type := "status";
         NotificationManager.timestamp := 1000;
         NotificationManager.groupId := "PROJECT-123" |} ∧
  length
    (NotificationManager.notificationQueue
       (@NotificationManager.addNotification sample_notification_helpers
          (@NotificationManager.addNotification sample_notification_helpers
             one_queued
             (status_update "PROJECT-123" "Status changed to Done") 2000)
          (status_update "PROJECT-123" "Comment added") 301000))
  = 2%nat.
Proof.
  destruct (@merge_changes_message_only sample_notification_helpers one_queued
              (status_update "PROJECT-123" "Status changed to Done") 2000
              0%nat queued_first)
    as (merged & Hm & Hmsg & Hid & Hkey & Htitle & Hts & Hty & Hg & _ & _ & _ & _
        & Hlate).
  - reflexivity.
  - reflexivity.
  - split; [reflexivity | cbn; lia].
  - intros j y _ Hj. lia.
  - split.
    + rewrite Hm. f_equal. destruct merged. cbn in *. by subst.
    + destruct (Hlate (status_update "PROJECT-123" "Comment added") 301000)
        as [_ Hslot]; [cbn; lia|].
      destruct Hslot as (front & Hq & _).
      * intros j y Hj Hy. destruct j as [|j]; [done | discriminate Hy].
      * reflexivity.
Defined.

(** C10 as stated fails in its last sentence.  With notifications
    switched off the queue keeps its entries.  Four updates of one task
    arrive at 0, 100 s, 300 s and 400 s: the second merges into the
    first entry, the third is five minutes after it and takes a second
    slot, and the fourth, 400 s after the first entry, merges into the
    second slot instead of starting a new one. *)
Lemma late_update_joins_later_slot :
  NotificationManager.notificationQueue
    (@NotificationManager.run sample_notification_helpers muted
       [NotificationManager.Enqueue
          (status_update "PROJECT-123" "Status changed to In Progress") 0;
        NotificationManager.Enqueue
          (status_update "PROJECT-123" "Comment added") 100000;
        NotificationManager.Enqueue
          (status_update "PROJECT-123" "Status changed to Done") 300000])
  = [ {| NotificationManager.id := 0;
         NotificationManager.taskKey := "PROJECT-123";
         NotificationManager.title := "Update in PROJECT-123";
         NotificationManager.message :=
           "Status changed to In Progress; Comment added";
         NotificationManager.type := "status";
         NotificationManager.timestamp := 0;
         NotificationManager.groupId := "PROJECT-123" |};
      {| NotificationManager.id := 300000;
         NotificationManager.taskKey := "PROJECT-123";
         NotificationManager.title := "Update in PROJECT-123";
         NotificationManager.message := "Status changed to Done";
         NotificationManager.type := "status";
         NotificationManager.timestamp := 300000;
         NotificationManager.groupId := "PROJECT-123" |} ] ∧
  300000 ≤ 400000 - 0 ∧
  NotificationManager.notificationQueue
    (@NotificationManager.run sample_notification_helpers muted
       [NotificationManager.Enqueue
          (status_update "PROJECT-123" "Status changed to In Progress") 0;
        NotificationManager.Enqueue
          (status_update "PROJECT-123" "Comment added") 100000;
        NotificationManager.Enqueue
          (status_update "PROJECT-123" "Status changed to Done") 300000;
        NotificationManager.Enqueue
          (status_update "PROJECT-123" "Resolution set to Fixed") 400000])
  = [ {| NotificationManager.id := 0;
         NotificationManager.taskKey := "PROJECT-123";
         NotificationManager.title := "Update in PROJECT-123";
         NotificationManager.message :=
           "Status changed to In Progress; Comment added";
         NotificationManager.type := "status";
         NotificationManager.timestamp := 0;
         NotificationManager.groupId := "PROJECT-123" |};
      {| NotificationManager.id := 300000;
         NotificationManager.taskKey := "PROJECT-123";
         NotificationManager.title := "Update in PROJECT-123";
         NotificationManager.message :=
           "Status changed to Done; Resolution set to Fixed";
         NotificationManager.type := "status";
         NotificationManager.timestamp := 300000;
         NotificationManager.groupId := "PROJECT-123" |} ].
Proof. split_and!; [vm_compute; reflexivity | lia | vm_compute; reflexivity]. Qed.

(** C7 as stated fails: a burst of updates for 102 different tasks
    over a fresh manager leaves 101 entries queued, none evicted. *)
Lemma queue_exceeds_bound :
  (100 < length
           (NotificationManager.notificationQueue
              (@NotificationManager.run sample_notification_helpers
                 NotificationManager.constructor (burst 102))))%nat.
Proof.
  rewrite (@run_burst sample_notification_helpers 101).
  cbn [NotificationManager.notificationQueue].
  rewrite length_fmap, length_seq. lia.
Qed.

(** ** The monitor loop *)

Section MonitorFacts.
Import TaskManager.
Context `{XMLManager.Helpers} `{TaskManager.Helpers}.

Lemma fetchTaskXML_fails net xm taskUrl error :
  XMLManager.cycle_fails net taskUrl error →
  (XMLManager.fetchTaskXML net xm taskUrl).2 = inl error.
Proof.
  unfold XMLManager.fetchTaskXML, XMLManager.cycle_fails.
  intros [[-> ->]|[(response & -> & -> & ->)|(response & -> & -> & Hp)]]; cbn;
    [done..|].
  by rewrite (processXMLData_parse_error _ _ _ _ Hp).
Qed.

(** A failing cycle leaves the cached snapshots as they were. *)
Lemma fetchTaskXML_fails_cache net xm taskUrl error :
  XMLManager.cycle_fails net taskUrl error →
  ∃ xm0,
    XMLManager.cache xm0 = XMLManager.cache xm ∧
    (XMLManager.fetchTaskXML net xm taskUrl).1
    = XMLManager.handleFetchError xm0 taskUrl error.
Proof.
  unfold XMLManager.fetchTaskXML, XMLManager.cycle_fails.
  intros [[-> ->]|[(response & -> & -> & ->)|(response & -> & -> & Hp)]]; cbn;
    [by exists xm..|].
  rewrite (processXMLData_parse_error _ _ _ _ Hp). cbn.
  by eexists (XMLManager.set_failedRequests _ xm).
Qed.

Lemma monitor_failed net now tm taskId task error :
  (XMLManager.fetchTaskXML net (xmlManager tm) (url task)).2 = inl error →
  monitor net now tm taskId task
  = handleError
      (set_xmlManager
         (XMLManager.fetchTaskXML net (xmlManager tm) (url task)).1 tm)
      taskId error now.
Proof.
  intros Hfail. unfold monitor.
  destruct (XMLManager.fetchTaskXML _ _ _) as [xm outcome].
  cbn in Hfail. by subst.
Qed.

(** C8.  A cycle of a registered task that fails with a fetch or parse
    error ends in a state of the manager (nothing is thrown further),
    in which the error counter of the task is one higher, the task is
    persisted with that counter, one more timer is pending and it is a
    timer for this task, with the backoff delay of the new counter; the
    store holds the same task identifiers as before, other tasks'
    entries, counters and timers are as they were, and the active tasks
    are untouched. *)
Theorem monitor_failure (net : string → option XMLManager.Response) (now : Z)
    (tm : TaskManager.t) (taskId : string) (task registered : Task)
    (error : XMLManager.Error) :
  XMLManager.cycle_fails net (url task) error →
  storageManager tm !! taskId = Some registered →
  ∃ (k : Z) (timer : Timer),
    k = PollingManager.errorCount (pollingManager tm) taskId + 1 ∧
    PollingManager.errorCount
      (pollingManager (monitor net now tm taskId task)) taskId = k ∧
    storageManager (monitor net now tm taskId task)
    = <[taskId := set_errorCount k registered]> (storageManager tm) ∧
    url (set_errorCount k registered) = url registered ∧
    timers (monitor net now tm taskId task) = timers tm ++ [timer] ∧
    timer_taskId timer = taskId ∧
    delay timer
    = PollingManager.getTaskInterval
        (pollingManager (monitor net now tm taskId task)) taskId now ∧
    (0 < k → PollingManager.constructed (pollingManager tm) →
     delay timer = Z.min (30000 * 2 ^ k) 900000) ∧
    dom (storageManager (monitor net now tm taskId task))
    = dom (storageManager tm) ∧
    activeTasks (monitor net now tm taskId task) = activeTasks tm ∧
    (∀ other, other ≠ taskId →
       storageManager (monitor net now tm taskId task) !! other
       = storageManager tm !! other ∧
       PollingManager.errorCount
         (pollingManager (monitor net now tm taskId task)) other
       = PollingManager.errorCount (pollingManager tm) other).
Proof.
  intros Hfail Hreg.
  rewrite (monitor_failed _ _ _ _ _ error)
    by (by apply fetchTaskXML_fails).
  unfold handleError. cbn [storageManager set_pollingManager set_xmlManager]. rewrite Hreg.
  set (k := PollingManager.errorCount (pollingManager tm) taskId + 1).
  eexists k, _. cbn.
  split_and!; try done.
  - unfold PollingManager.errorCount. cbn. by rewrite lookup_insert_eq.
  - intros Hk Hc. rewrite getTaskInterval_errors; cbn.
    + unfold PollingManager.errorCount. cbn. rewrite lookup_insert_eq. cbn.
      by rewrite Hc.
    + unfold PollingManager.errorCount. cbn. by rewrite lookup_insert_eq.
  - by apply dom_insert_lookup_L.
  - intros other Hne. unfold PollingManager.errorCount. cbn.
    by rewrite !lookup_insert_ne.
Qed.

End MonitorFacts.

(** ** Resume *)

Section ResumeFacts.
Import TaskManager.
Context `{XMLManager.Helpers} `{TaskManager.Helpers}.















End ResumeFacts.

(** ** A task from its registration to the next process start *)

Section SyncFacts.
Import TaskManager Orchestrator.
Context `{XMLManager.Helpers} `{NotificationManager.Helpers}
  `{TaskManager.Helpers}.
Variable describe : XMLManager.Details → Update.Changes.

(** What is taken of the methods that are not part of the sources:
    [handleChanges] is the one of the specification, a failed fetch is
    booked without touching the cached snapshots (section 4.2), and a
    task that is being monitored is not terminal. *)
Hypothesis handleChanges_persists : ∀ tm taskId result now,
  TaskManager.handleChanges tm taskId result now
  = Orchestrator.handleChanges describe tm taskId result now.
Hypothesis handleFetchError_cache : ∀ xm taskUrl error,
  XMLManager.cache (XMLManager.handleFetchError xm taskUrl error)
  = XMLManager.cache xm.
Hypothesis active_monitored : terminal "active" = false.












End SyncFacts.



(** A first failing cycle of PROJECT-123: one error, next cycle in a minute. *)
Lemma monitor_failure_witness :
  PollingManager.errorCount
    (TaskManager.pollingManager
       (@TaskManager.monitor sample_xml_helpers sample_task_helpers net_down
          1710172800000 (TaskManager.constructor persisted_123)
          "PROJECT-123" task_123))
    "PROJECT-123" = 1 ∧
  ∃ timer,
    TaskManager.timers
      (@TaskManager.monitor sample_xml_helpers sample_task_helpers net_down
         1710172800000 (TaskManager.constructor persisted_123)
         "PROJECT-123" task_123) = [timer] ∧
    TaskManager.delay timer = 60000.
Proof.
  destruct (@monitor_failure sample_xml_helpers sample_task_helpers net_down
              1710172800000 (TaskManager.constructor persisted_123)
              "PROJECT-123" task_123 task_123 XMLManager.NetworkError)
    as (k & timer & -> & Hcount & _ & _ & Htimers & _ & _ & Hdelay & _).
  - left. split; reflexivity.
  - reflexivity.
  - split; [exact Hcount|]. exists timer. split; [exact Htimers|].
    apply Hdelay; reflexivity.
Defined.

(** * Further properties of the engine *)

(** ** The poll interval: backoff and tiers *)

Section IntervalFacts.
Import PollingManager.

Lemma backoff_monotone (j k : Z) :
  0 < j ≤ k → Z.min (30000 * 2 ^ j) 900000 ≤ Z.min (30000 * 2 ^ k) 900000.
Proof.
  intros Hjk.
  assert (2 ^ j ≤ 2 ^ k) by (apply Z.pow_le_mono_r; lia). lia.
Qed.

(** X1.  The backoff never shrinks as errors accumulate: of two
    managers (or two moments of one manager) in which the task has a
    positive error counter, the one with the larger counter gives a
    delay at least as long, whatever the clock and the update times
    are; and from five errors on the delay is the cap of fifteen
    minutes. *)
Theorem getTaskInterval_backoff_monotone (pm pm' : PollingManager.t)
    (taskId : string) (now now' : Z) :
  constructed pm → constructed pm' →
  0 < errorCount pm taskId →
  errorCount pm taskId ≤ errorCount pm' taskId →
  getTaskInterval pm taskId now ≤ getTaskInterval pm' taskId now' ∧
  (5 ≤ errorCount pm taskId → getTaskInterval pm taskId now = 900000).
Proof.
  intros Hc Hc' Hpos Hle.
  rewrite !getTaskInterval_errors by lia. rewrite Hc, Hc'.
  split; [apply backoff_monotone; lia | apply backoff_saturates].
Qed.

(** Two errors, then six. *)
Lemma getTaskInterval_backoff_monotone_witness :
  getTaskInterval (set_errorCounts {["PROJECT-123" := 2]} constructor)
    "PROJECT-123" 0
  ≤ getTaskInterval (set_errorCounts {["PROJECT-123" := 6]} constructor)
      "PROJECT-123" 1710086400000.
Proof.
  apply getTaskInterval_backoff_monotone; [reflexivity | reflexivity | | ];
    vm_compute; [reflexivity | discriminate].
Defined.

(** X2.  The backoff takes no account of the activity tier: a task
    whose last update is a day or more old is polled every fifteen
    minutes while it has no error, and after [k] errors, [k] from one
    to four, after [30s * 2^k], which is shorter; the first failure of
    an idle task brings its next poll forward to one minute. *)
Theorem getTaskInterval_error_shortens_idle (pm : PollingManager.t)
    (taskId : string) (now lastUpdate k : Z) :
  constructed pm →
  lastUpdateTimes pm !! taskId = Some lastUpdate →
  lastUpdate ≠ 0 →
  86400000 ≤ now - lastUpdate →
  errorCounts pm !! taskId = None →
  1 ≤ k ≤ 4 →
  getTaskInterval pm taskId now = 900000 ∧
  getTaskInterval
    (set_errorCounts (<[taskId := k]> (errorCounts pm)) pm) taskId now
  = 30000 * 2 ^ k ∧
  30000 * 2 ^ k < 900000 ∧
  (k = 1 →
   getTaskInterval
     (set_errorCounts (<[taskId := 1]> (errorCounts pm)) pm) taskId now
   = 60000).
Proof.
  intros Hc Hupd Hnz Hidle Hnone Hk.
  assert (30000 * 2 ^ k < 900000) as Hlt.
  { assert (2 ^ k ≤ 2 ^ 4) by (apply Z.pow_le_mono_r; lia).
    change (2 ^ 4) with 16 in *. lia. }
  assert (getTaskInterval
            (set_errorCounts (<[taskId := k]> (errorCounts pm)) pm) taskId now
          = 30000 * 2 ^ k) as Hk'.
  { rewrite getTaskInterval_errors;
      unfold errorCount; cbn; rewrite lookup_insert_eq; cbn; [|lia].
    rewrite Hc. lia. }
  split_and!; [|done|done|by intros ->].
  unfold getTaskInterval, errorCount. rewrite Hnone, Hupd. cbn.
  rewrite (bool_decide_eq_false_2 (lastUpdate = 0)) by done.
  by rewrite !bool_decide_eq_false_2 by lia.
Qed.

(** A task idle for two days fails once. *)
Lemma getTaskInterval_error_shortens_idle_witness :
  getTaskInterval
    (set_lastUpdateTimes {["PROJECT-123" := 1710000000000]} constructor)
    "PROJECT-123" 1710172800000 = 900000 ∧
  getTaskInterval
    (set_errorCounts {["PROJECT-123" := 1]}
       (set_lastUpdateTimes {["PROJECT-123" := 1710000000000]} constructor))
    "PROJECT-123" 1710172800000 = 60000.
Proof.
  destruct (getTaskInterval_error_shortens_idle
              (set_lastUpdateTimes {["PROJECT-123" := 1710000000000]} constructor)
              "PROJECT-123" 1710172800000 1710000000000 1)
    as (Hidle & _ & _ & Hone);
    [reflexivity | reflexivity | discriminate | vm_compute; discriminate
    | reflexivity | lia | ].
  split; [exact Hidle | exact (Hone eq_refl)].
Defined.

(** X3.  Without errors the delay never shrinks as time passes: for a
    task whose error counter is not positive, a later clock reading
    gives a delay at least as long. *)
Theorem getTaskInterval_monotone_in_time (pm : PollingManager.t)
    (taskId : string) (now now' : Z) :
  constructed pm →
  errorCount pm taskId ≤ 0 →
  now ≤ now' →
  getTaskInterval pm taskId now ≤ getTaskInterval pm taskId now'.
Proof.
  intros Hc Hk Hnow. unfold getTaskInterval.
  rewrite bool_decide_eq_false_2 by lia.
  destruct (falsy _); [done|].
  cbn zeta. repeat case_bool_decide; lia.
Qed.

(** One minute, then two days, after the last update. *)
Lemma getTaskInterval_monotone_in_time_witness :
  getTaskInterval
    (set_lastUpdateTimes {["PROJECT-123" := 1710000000000]} constructor)
    "PROJECT-123" 1710000060000
  ≤ getTaskInterval
      (set_lastUpdateTimes {["PROJECT-123" := 1710000000000]} constructor)
      "PROJECT-123" 1710172800000.
Proof.
  apply getTaskInterval_monotone_in_time;
    [reflexivity | vm_compute; discriminate | lia].
Defined.

End IntervalFacts.

(** ** The diff: what it reports and what it overlooks *)

Section DiffFacts.
Import XMLManager.

(** The field deltas after the four checks, key by key. *)
Lemma check_fields_lookup oldData newData field :
  fields (details
    (foldl (check_field oldData newData)
       {| hasChanges := false; details := no_details |}
       ["status"; "assignee"; "priority"; "resolution"])) !! field
  = if bool_decide (field ∈ ["status"; "assignee"; "priority"; "resolution"])
    then if bool_decide (get oldData field = get newData field) then None
         else Some {| from := get oldData field; to := get newData field |}
    else None.
Proof.
  cbn [foldl]. unfold check_field.
  destruct (decide (field = "status")) as [->|Hs];
    [|destruct (decide (field = "assignee")) as [->|Ha];
       [|destruct (decide (field = "priority")) as [->|Hp];
          [|destruct (decide (field = "resolution")) as [->|Hr]]]].
  1-4: rewrite (bool_decide_eq_true_2 (_ ∈ _)) by (by repeat constructor).
  1-4: repeat case_bool_decide; cbn;
    rewrite ?lookup_insert_ne by done; rewrite ?lookup_insert_eq; try done;
    match goal with H : ¬ _ ≠ _ |- _ => destruct H; congruence
                  | H : _ ≠ _ |- _ => by destruct H end.
  rewrite (bool_decide_eq_false_2 (_ ∈ _)).
  - repeat case_bool_decide; cbn; by rewrite ?lookup_insert_ne by done.
  - intros Hin. repeat (apply elem_of_cons in Hin as [?|Hin]; [done|]).
    by apply elem_of_nil in Hin.
Qed.

(** X4.  Against a cached snapshot the diff is not marked new, and its
    details hold a delta under the name of a field exactly when that
    field is one of the four scalar fields and its old and new values
    differ; the delta carries the old value as [from] and the new one as
    [to]. *)
Theorem detectChanges_field_deltas (oldData newData : TaskData)
    (field : string) :
  isNew (details (detectChanges (Some oldData) newData)) = false ∧
  fields (details (detectChanges (Some oldData) newData)) !! field
  = (if bool_decide (field ∈ ["status"; "assignee"; "priority"; "resolution"])
     then if bool_decide (get oldData field = get newData field) then None
          else Some {| from := get oldData field; to := get newData field |}
     else None) ∧
  (∀ change : FieldChange,
     fields (details (detectChanges (Some oldData) newData)) !! field
     = Some change →
     hasChanges (detectChanges (Some oldData) newData) = true ∧
     from change ≠ to change).
Proof.
  assert (∀ changes,
            fields (details (check_comments oldData newData changes))
            = fields (details changes) ∧
            isNew (details (check_comments oldData newData changes))
            = isNew (details changes)) as Hcomments.
  { intros changes. unfold check_comments. by case_bool_decide. }
  assert (∀ names changes,
            isNew (details (foldl (check_field oldData newData) changes names))
            = isNew (details changes)) as HisNew.
  { induction names as [|name names IH]; intros changes; [done|].
    cbn. by rewrite IH, check_field_isNew. }
  unfold detectChanges.
  destruct (Hcomments (foldl (check_field oldData newData)
              {| hasChanges := false; details := no_details |}
              ["status"; "assignee"; "priority"; "resolution"])) as [-> ->].
  rewrite HisNew, check_fields_lookup.
  split_and!; [done..|].
  intros change Hchange.
  case_bool_decide as Hin; [|done].
  case_bool_decide as Hne; [done|]. simplify_eq. cbn. split; [|done].
  destruct (hasChanges (check_comments oldData newData _)) eqn:Hq; [done|].
  apply (detectChanges_quiet oldData newData) in Hq as [Hall _].
  rewrite list.Forall_forall in Hall. destruct Hne. by apply Hall.
Qed.

(** The four walked fields agree exactly when the four record fields
    do. *)
Lemma same_fields oldData newData :
  Forall (λ field, get oldData field = get newData field)
    ["status"; "assignee"; "priority"; "resolution"] ↔
  status oldData = status newData ∧ assignee oldData = assignee newData ∧
  priority oldData = priority newData ∧
  resolution oldData = resolution newData.
Proof.
  split.
  - intros Hall. rewrite list.Forall_forall in Hall.
    split_and!; [apply (Hall "status") | apply (Hall "assignee")
                | apply (Hall "priority") | apply (Hall "resolution")];
      by repeat constructor.
  - intros (? & ? & ? & ?). by repeat constructor.
Qed.

(** X5.  The diff overlooks comment edits and removals: when the four
    scalar fields agree and the new comment list is not longer than
    the old one, whatever the comments say, it reports no change and
    empty details; and [hasChanges] is down in exactly that case. *)
Theorem detectChanges_overlooks_comment_edits (oldData newData : TaskData) :
  (hasChanges (detectChanges (Some oldData) newData) = false ↔
   (status oldData = status newData ∧ assignee oldData = assignee newData ∧
    priority oldData = priority newData ∧
    resolution oldData = resolution newData) ∧
   (length (comments newData) ≤ length (comments oldData))%nat) ∧
  (hasChanges (detectChanges (Some oldData) newData) = false →
   detectChanges (Some oldData) newData
   = {| hasChanges := false; details := no_details |}).
Proof.
  split.
  - rewrite detectChanges_quiet. by rewrite same_fields.
  - intros [Hall Hlen]%detectChanges_quiet. unfold detectChanges.
    rewrite check_fields_same by done. by apply check_comments_same.
Qed.

End DiffFacts.

(** ** A cycle of [fetchTaskXML]: failure and success *)

Section FetchFacts.
Import XMLManager.
Context `{Helpers}.

(** X6.  A cycle that fails throws the error on after
    [handleFetchError] has seen it, and no cached snapshot has changed
    by then: when the request is rejected or the status is not a
    success, [handleFetchError] receives the manager as it was; when the
    response was good and the document does not parse, it receives the
    manager with the failure record of the URL already cleared and the
    cache as it was. *)
Theorem fetchTaskXML_failure (net : string → option Response)
    (xm : XMLManager.t) (taskUrl : string) (error : Error) :
  cycle_fails net taskUrl error →
  ∃ before : XMLManager.t,
    fetchTaskXML net xm taskUrl
    = (handleFetchError before taskUrl error, inl error) ∧
    cache before = cache xm ∧
    ((∃ response, net (convertToXmlUrl taskUrl) = Some response ∧
                  ok response = true) →
     before = set_failedRequests (delete taskUrl (failedRequests xm)) xm) ∧
    ((∀ response, net (convertToXmlUrl taskUrl) = Some response →
                  ok response = false) →
     before = xm).
Proof.
  unfold cycle_fails, fetchTaskXML.
  intros [[Hnet ->]|[(response & Hnet & Hok & ->)|(response & Hnet & Hok & Hp)]];
    rewrite Hnet; cbn.
  - exists xm. split_and!; [done..| |done].
    intros (response & ? & _). congruence.
  - rewrite Hok. cbn. exists xm. split_and!; [done..| |done].
    intros (response' & ? & ?). congruence.
  - rewrite Hok. cbn. rewrite (processXMLData_parse_error _ _ _ _ Hp).
    eexists. split_and!; [reflexivity | done | done |].
    intros Hbad. specialize (Hbad _ eq_refl). congruence.
Qed.

(** X7.  A cycle that succeeds clears the failure record of its URL and
    touches nothing kept for another URL; afterwards a snapshot is
    cached for the URL which agrees with the fetched record on the four
    scalar fields and has at least as many comments, and which is the
    fetched record itself when a change was reported. *)
Theorem fetchTaskXML_success (net : string → option Response)
    (xm : XMLManager.t) (taskUrl : string) (response : Response)
    (taskData : TaskData) :
  net (convertToXmlUrl taskUrl) = Some response →
  ok response = true →
  parseXML (text response) = inr taskData →
  ∃ (xm' : XMLManager.t) (result : Result) (cached : TaskData),
    fetchTaskXML net xm taskUrl = (xm', inr result) ∧
    data result = taskData ∧
    failedRequests xm' = delete taskUrl (failedRequests xm) ∧
    (∀ other, other ≠ taskUrl →
       cache xm' !! other = cache xm !! other ∧
       failedRequests xm' !! other = failedRequests xm !! other) ∧
    cache xm' !! taskUrl = Some cached ∧
    status cached = status taskData ∧ assignee cached = assignee taskData ∧
    priority cached = priority taskData ∧
    resolution cached = resolution taskData ∧
    (length (comments taskData) ≤ length (comments cached))%nat ∧
    (changed result = true → cached = taskData).
Proof.
  intros Hnet Hok Hp.
  rewrite (fetchTaskXML_ok _ _ _ _ Hnet Hok), (processXMLData_parsed _ _ _ _ Hp).
  cbn [cache set_failedRequests].
  destruct (hasChanges (detectChanges (cache xm !! taskUrl) taskData)) eqn:Hc.
  - eexists _, _, taskData. split; [reflexivity|]. cbn.
    split_and!; try done.
    + intros other Hne. by rewrite lookup_insert_ne, lookup_delete_ne.
    + by rewrite lookup_insert_eq.
  - destruct (cache xm !! taskUrl) as [cached|] eqn:Hcached; [|done].
    apply (detectChanges_quiet cached taskData) in Hc
      as [(? & ? & ? & ?)%same_fields ?].
    eexists _, _, cached. split; [reflexivity|]. cbn.
    split_and!; try done.
    intros other Hne. by rewrite lookup_delete_ne.
Qed.

End FetchFacts.

(** The rejected request of a task with nothing cached. *)
Lemma fetchTaskXML_failure_witness :
  ∃ before,
    @XMLManager.fetchTaskXML sample_xml_helpers net_down XMLManager.constructor
      "https://jira.company.com/browse/PROJECT-123"
    = (sample_handleFetchError before
         "https://jira.company.com/browse/PROJECT-123" XMLManager.NetworkError,
       inl XMLManager.NetworkError) ∧
    XMLManager.cache before = ∅.
Proof.
  destruct (@fetchTaskXML_failure sample_xml_helpers net_down
              XMLManager.constructor
              "https://jira.company.com/browse/PROJECT-123"
              XMLManager.NetworkError)
    as (before & Hf & Hc & _).
  - left. split; reflexivity.
  - exists before. split; [exact Hf | exact Hc].
Defined.

(** The first successful fetch of PROJECT-123. *)
Lemma fetchTaskXML_success_witness :
  ∃ xm' result,
    @XMLManager.fetchTaskXML sample_xml_helpers sample_net XMLManager.constructor
      "https://jira.company.com/browse/PROJECT-123" = (xm', inr result) ∧
    XMLManager.failedRequests xm' = ∅ ∧
    ∃ cached,
      XMLManager.cache xm' !! "https://jira.company.com/browse/PROJECT-123"
      = Some cached ∧
      XMLManager.status cached = "To Do".
Proof.
  destruct (@fetchTaskXML_success sample_xml_helpers sample_net
              XMLManager.constructor
              "https://jira.company.com/browse/PROJECT-123"
              {| XMLManager.ok := true; XMLManager.http_status := 200;
                 XMLManager.text := "To Do" |} to_do)
    as (xm' & result & cached & Hf & _ & Hfailed & _ & Hc & Hstatus & _);
    try reflexivity.
  exists xm', result. split; [exact Hf|]. split; [exact Hfailed|].
  exists cached. split; [exact Hc | exact Hstatus].
Defined.

(** ** The drain loop: order, loss, idleness *)

Section DrainFacts.
Import NotificationManager.
Context `{Helpers}.

Lemma drain_history nm : history (drain nm) = history nm.
Proof.
  unfold drain, history. destruct (notificationQueue nm) eqn:Hq; cbn.
  - by rewrite Hq.
  - by rewrite <- app_assoc.
Qed.

Lemma drain_shown nm : shown nm `prefix_of` shown (drain nm).
Proof.
  unfold drain. destruct (notificationQueue nm); cbn; [done|].
  by apply prefix_app_r.
Qed.

Lemma processQueue_history nm : history (processQueue nm) = history nm.
Proof.
  unfold processQueue. destruct (negb _); [done|].
  by rewrite drain_history.
Qed.

Lemma processQueue_shown nm : shown nm `prefix_of` shown (processQueue nm).
Proof.
  unfold processQueue. destruct (negb _); [done|].
  apply (drain_shown (set_isProcessing true nm)).
Qed.

Lemma addNotification_history nm update now :
  history (addNotification nm update now) = history nm ∨
  history (addNotification nm update now)
  = history nm ++ [skeleton (createNotification update now)].
Proof.
  destruct (grouping (preferences nm)) eqn:Hg;
    [destruct (list_find (similar (createNotification update now))
                 (notificationQueue nm)) as [[i first]|] eqn:Hfind|].
  - left. rewrite (addNotification_grouped _ _ _ _ _ Hg Hfind).
    apply list_find_Some in Hfind as (Hi & _ & _).
    unfold history. cbn [shown notificationQueue set_notificationQueue].
    rewrite !fmap_app. f_equal.
    rewrite list_fmap_insert. apply list_insert_id.
    by rewrite list_lookup_fmap, Hi.
  - right. rewrite addNotification_pushed by (by right).
    destruct (negb _); rewrite ?processQueue_history;
      unfold history; cbn [shown notificationQueue set_notificationQueue];
      by rewrite !fmap_app, app_assoc.
  - right. rewrite addNotification_pushed by (by left).
    destruct (negb _); rewrite ?processQueue_history;
      unfold history; cbn [shown notificationQueue set_notificationQueue];
      by rewrite !fmap_app, app_assoc.
Qed.

Lemma addNotification_shown nm update now :
  shown nm `prefix_of` shown (addNotification nm update now).
Proof.
  unfold addNotification, tryGroupNotification.
  destruct (grouping _);
    [destruct (list_find _ _) as [[i first]|]; [done|]|];
    cbn; (destruct (negb _); [|done]);
    apply (processQueue_shown (set_notificationQueue _ nm)).
Qed.

(** X8.  Nothing is lost and nothing overtakes: along every run of
    enqueues and loop wake-ups, what was shown stays shown, unaltered
    and in the same order; and the record of the manager (the entries
    shown followed by the entries queued, messages apart) only grows at
    its end, by at most one entry per event. *)
Theorem run_keeps_order (nm : NotificationManager.t) (events : list Event) :
  shown nm `prefix_of` shown (run nm events) ∧
  history nm `prefix_of` history (run nm events) ∧
  (length (history (run nm events)) ≤ length (history nm) + length events)%nat.
Proof.
  revert nm. induction events as [|e events IH]; intros nm; [by cbn; rewrite Nat.add_0_r|].
  cbn [run foldl]. destruct (IH (step nm e)) as (IHs & IHh & IHl).
  unfold run in *.
  assert (shown nm `prefix_of` shown (step nm e)) as Hs.
  { destruct e; cbn; [apply addNotification_shown|].
    destruct (isProcessing nm); [apply drain_shown | done]. }
  assert (history (step nm e) = history nm ∨
          ∃ n, history (step nm e) = history nm ++ [n]) as Hh.
  { destruct e; cbn.
    - destruct (addNotification_history nm update now); eauto.
    - left. destruct (isProcessing nm); [apply drain_history | done]. }
  split_and!.
  - by etrans.
  - etrans; [|exact IHh]. destruct Hh as [->|[n ->]]; [done|].
    by apply prefix_app_r.
  - cbn [length]. destruct Hh as [Hh|[n Hh]]; rewrite Hh in IHl;
      rewrite ?List.length_app in IHl; cbn in IHl; lia.
Qed.

(** X9.  With notifications off and no loop running, nothing reaches
    the sink: along every run the sink is as it was, no loop starts and
    the queue never gets shorter. *)
Theorem disabled_never_shows (nm : NotificationManager.t) (events : list Event) :
  enabled (preferences nm) = false →
  isProcessing nm = false →
  shown (run nm events) = shown nm ∧
  isProcessing (run nm events) = false ∧
  (length (notificationQueue nm)
   ≤ length (notificationQueue (run nm events)))%nat.
Proof.
  revert nm. induction events as [|e events IH]; intros nm Hoff Hidle; [done|].
  cbn [run foldl].
  assert (shown (step nm e) = shown nm ∧ isProcessing (step nm e) = false ∧
          (length (notificationQueue nm)
           ≤ length (notificationQueue (step nm e)))%nat) as (Hs & Hp & Hl).
  { destruct e; cbn; [|by rewrite Hidle].
    unfold addNotification, tryGroupNotification.
    destruct (grouping _);
      [destruct (list_find _ _) as [[i first]|];
         [cbn; by rewrite length_insert|]|];
      cbn; rewrite Hidle; cbn; unfold processQueue; cbn; rewrite Hoff; cbn;
      rewrite List.length_app; split_and!; first [done | lia]. }
  destruct (IH (step nm e)) as (IHs & IHp & IHl);
    [by rewrite step_preferences | done |].
  unfold run in *. split_and!; [congruence | done | lia].
Qed.

(** X10.  A running loop empties the queue in order: from a manager
    with a loop suspended, one wake-up per queued entry plus one hands
    the queued entries to the sink, first in first out, leaves the queue
    empty and ends the loop. *)
Theorem loop_drains_queue (nm : NotificationManager.t) :
  isProcessing nm = true →
  run nm (replicate (S (length (notificationQueue nm))) WakeUp)
  = {| notificationQueue := [];
       isProcessing := false;
       preferences := preferences nm;
       shown := shown nm ++ notificationQueue nm |}.
Proof.
  destruct nm as [q p prefs s].
  cbn [isProcessing notificationQueue preferences shown]. intros ->.
  revert s. induction q as [|n q IH]; intros s.
  - cbn. by rewrite app_nil_r.
  - cbn [length].
    change (run ?nm (replicate (S (S (length q))) WakeUp))
      with (run (step nm WakeUp) (replicate (S (length q)) WakeUp)).
    change (step _ WakeUp)
      with {| notificationQueue := q; isProcessing := true;
              preferences := prefs; shown := s ++ [n] |}.
    rewrite IH. by rewrite <- app_assoc.
Qed.

(** X11.  With notifications on, nothing is stranded: if a manager
    holds no queued entry whenever no loop is running, then after every
    run it still does; an entry waits in the queue only while a loop is
    there to show it. *)
Theorem idle_means_empty (nm : NotificationManager.t) (events : list Event) :
  enabled (preferences nm) = true →
  (isProcessing nm = false → notificationQueue nm = []) →
  isProcessing (run nm events) = false →
  notificationQueue (run nm events) = [].
Proof.
  revert nm. induction events as [|e events IH]; intros nm Hon Hinv; [done|].
  cbn [run foldl]. apply IH; [by rewrite step_preferences|].
  destruct e; cbn.
  - unfold addNotification, tryGroupNotification.
    destruct (isProcessing nm) eqn:Hp.
    + destruct (grouping _);
        [destruct (list_find _ _) as [[i first]|]|]; cbn; rewrite ?Hp; cbn;
        intros; congruence.
    + rewrite (Hinv eq_refl). cbn.
      destruct (grouping _); cbn; rewrite Hp; cbn;
        unfold processQueue; cbn; rewrite Hon; cbn;
        unfold drain; cbn; rewrite (Hinv eq_refl); cbn; intros _; reflexivity.
  - destruct (isProcessing nm) eqn:Hp; [|intros _; by apply Hinv].
    unfold drain. destruct (notificationQueue nm) eqn:Hq; cbn;
      intros; congruence.
Qed.

End DrainFacts.

(** Two updates and a wake-up on a muted manager. *)
Lemma disabled_never_shows_witness :
  NotificationManager.shown
    (@NotificationManager.run sample_notification_helpers muted
       [NotificationManager.Enqueue (status_update "PROJECT-7" "Assigned to ann") 0;
        NotificationManager.WakeUp;
        NotificationManager.Enqueue
          (status_update "PROJECT-123" "Status changed to Done") 2000])
  = [] ∧
  NotificationManager.isProcessing
    (@NotificationManager.run sample_notification_helpers muted
       [NotificationManager.Enqueue (status_update "PROJECT-7" "Assigned to ann") 0;
        NotificationManager.WakeUp;
        NotificationManager.Enqueue
          (status_update "PROJECT-123" "Status changed to Done") 2000])
  = false.
Proof.
  destruct (@disabled_never_shows sample_notification_helpers muted
    [NotificationManager.Enqueue (status_update "PROJECT-7" "Assigned to ann") 0;
     NotificationManager.WakeUp;
     NotificationManager.Enqueue
       (status_update "PROJECT-123" "Status changed to Done") 2000])
    as (Hs & Hp & _); [reflexivity | reflexivity |].
  split; [exact Hs | exact Hp].
Defined.

(** The loop of [one_queued] shows the queued entry and stops. *)
Lemma loop_drains_queue_witness :
  NotificationManager.notificationQueue
    (@NotificationManager.run sample_notification_helpers one_queued
       [NotificationManager.WakeUp; NotificationManager.WakeUp]) = [] ∧
  NotificationManager.isProcessing
    (@NotificationManager.run sample_notification_helpers one_queued
       [NotificationManager.WakeUp; NotificationManager.WakeUp]) = false.
Proof.
  pose proof (@loop_drains_queue sample_notification_helpers one_queued
                eq_refl) as Hrun.
  change (replicate _ _)
    with [NotificationManager.WakeUp; NotificationManager.WakeUp] in Hrun.
  rewrite Hrun. split; reflexivity.
Defined.

(** Two updates, then the loop runs dry. *)
Lemma idle_means_empty_witness :
  NotificationManager.notificationQueue
    (@NotificationManager.run sample_notification_helpers
       NotificationManager.constructor
       [NotificationManager.Enqueue (status_update "PROJECT-7" "Assigned to ann") 0;
        NotificationManager.Enqueue
          (status_update "PROJECT-123" "Status changed to Done") 2000;
        NotificationManager.WakeUp; NotificationManager.WakeUp]) = [].
Proof.
  apply (@idle_means_empty sample_notification_helpers);
    [reflexivity | intros _; reflexivity | reflexivity].
Defined.

(** ** A cycle that finds nothing new *)

Section QuietCycleFacts.
Import TaskManager.
Context `{XMLManager.Helpers} `{TaskManager.Helpers}.

Lemma interval_bounds pm taskId now :
  PollingManager.constructed pm →
  30000 ≤ PollingManager.getTaskInterval pm taskId now ≤ 900000.
Proof.
  intros Hc. red in Hc.
  destruct (decide (0 < PollingManager.errorCount pm taskId)) as [Hk|Hk].
  - rewrite getTaskInterval_errors, Hc by done.
    pose proof (backoff_lower _ Hk). lia.
  - pose proof (getTaskInterval_no_errors pm taskId now Hk) as Hin.
    rewrite Hc in Hin.
    repeat (apply elem_of_cons in Hin as [->|Hin]; [lia|]).
    by apply elem_of_nil in Hin.
Qed.

(** X12.  A cycle whose fetch succeeds and whose diff against the
    cached snapshot finds no change does two things only: it clears the
    failure record of the URL, and it schedules one next cycle of the
    same task, after the delay [getTaskInterval] gives, which lies
    between thirty seconds and fifteen minutes.  Nothing is persisted,
    the cache and the active tasks stay, no notification is queued, and
    the polling manager is untouched: a success does not reset the
    error counter of the task. *)
Theorem monitor_quiet_cycle (net : string → option XMLManager.Response)
    (now : Z) (tm : TaskManager.t) (taskId : string) (task : Task)
    (response : XMLManager.Response) (taskData cached : XMLManager.TaskData) :
  net (XMLManager.convertToXmlUrl (url task)) = Some response →
  XMLManager.ok response = true →
  XMLManager.parseXML (XMLManager.text response) = inr taskData →
  XMLManager.cache (xmlManager tm) !! url task = Some cached →
  XMLManager.hasChanges (XMLManager.detectChanges (Some cached) taskData)
  = false →
  PollingManager.constructed (pollingManager tm) →
  ∃ d : Z,
    monitor net now tm taskId task
    = setTimeout taskId task d
        (set_xmlManager
           (XMLManager.set_failedRequests
              (delete (url task) (XMLManager.failedRequests (xmlManager tm)))
              (xmlManager tm)) tm) ∧
    d = PollingManager.getTaskInterval (pollingManager tm) taskId now ∧
    30000 ≤ d ≤ 900000 ∧
    timers (monitor net now tm taskId task)
    = timers tm ++
        [{| timer_taskId := taskId; timer_task := task; delay := d |}] ∧
    storageManager (monitor net now tm taskId task) = storageManager tm ∧
    pollingManager (monitor net now tm taskId task) = pollingManager tm ∧
    notificationManager (monitor net now tm taskId task)
    = notificationManager tm ∧
    activeTasks (monitor net now tm taskId task) = activeTasks tm ∧
    XMLManager.cache (xmlManager (monitor net now tm taskId task))
    = XMLManager.cache (xmlManager tm).
Proof.
  intros Hnet Hok Hp Hcached Hquiet Hc.
  unfold monitor.
  rewrite (fetchTaskXML_ok _ _ _ _ Hnet Hok), (processXMLData_parsed _ _ _ _ Hp).
  cbn [XMLManager.cache XMLManager.set_failedRequests].
  rewrite Hcached, Hquiet.
  cbn [XMLManager.changed pollingManager set_xmlManager].
  eexists. split; [reflexivity|].
  split; [reflexivity|]. split; [by apply interval_bounds|].
  by cbn.
Qed.

End QuietCycleFacts.

(** PROJECT-123 is fetched again and still says To Do. *)
Lemma monitor_quiet_cycle_witness :
  TaskManager.timers
    (@TaskManager.monitor sample_xml_helpers sample_task_helpers sample_net
       1710172800000 tracking_123 "PROJECT-123" task_123)
  = [{| TaskManager.timer_taskId := "PROJECT-123";
        TaskManager.timer_task := task_123;
        TaskManager.delay := 30000 |}] ∧
  TaskManager.storageManager
    (@TaskManager.monitor sample_xml_helpers sample_task_helpers sample_net
       1710172800000 tracking_123 "PROJECT-123" task_123)
  = persisted_123.
Proof.
  destruct (@monitor_quiet_cycle sample_xml_helpers sample_task_helpers
              sample_net 1710172800000 tracking_123 "PROJECT-123" task_123
              {| XMLManager.ok := true; XMLManager.http_status := 200;
                 XMLManager.text := "To Do" |} to_do to_do)
    as (d & _ & -> & _ & Htimers & Hstore & _); try reflexivity.
  split; [exact Htimers | exact Hstore].
Defined.

(** ** The socket: retries *)

Section ConnectionFacts.
Import ConnectionManager.

Lemma retryConnection_bounded cm :
  maxRetries cm = 5 → 0 ≤ retryCount cm ≤ 5 → Forall retry_delay (timers cm) →
  maxRetries (retryConnection cm) = 5 ∧
  0 ≤ retryCount (retryConnection cm) ≤ 5 ∧
  Forall retry_delay (timers (retryConnection cm)).
Proof.
  intros Hmax Hcount Htimers. unfold retryConnection.
  case_bool_decide as Hlt; [|done]. cbn. rewrite Hmax in Hlt.
  split_and!; [done | lia | lia |].
  apply Forall_app. split; [done|]. constructor; [|done].
  exists (retryCount cm + 1). split; [lia | done].
Qed.

(** X13.  The socket is retried at most five times in a row, and never
    later than twenty-five seconds after a failure: along every run of
    opens, closes and timers that fire, from a manager as its
    constructor builds it, the retry counter stays between zero and
    five and every pending timer waits five seconds times a retry number
    from one to five. *)
Theorem retries_bounded (cm : ConnectionManager.t) (events : list Event) :
  maxRetries cm = 5 →
  0 ≤ retryCount cm ≤ 5 →
  Forall retry_delay (timers cm) →
  maxRetries (run cm events) = 5 ∧
  0 ≤ retryCount (run cm events) ≤ 5 ∧
  Forall retry_delay (timers (run cm events)).
Proof.
  revert cm. induction events as [|e events IH]; intros cm Hmax Hcount Htimers;
    [done|].
  cbn [run foldl].
  assert (maxRetries (step cm e) = 5 ∧ 0 ≤ retryCount (step cm e) ≤ 5 ∧
          Forall retry_delay (timers (step cm e))) as (? & ? & ?).
  { destruct e as [| |i throws]; cbn [step].
    - unfold onopen, showStatus. cbn. split_and!; [done | lia | lia | done].
    - unfold onclose. by apply retryConnection_bounded.
    - destruct (timers cm !! i); [|done].
      unfold connect. destruct throws.
      + apply retryConnection_bounded; cbn; [done..|]. by apply Forall_delete.
      + cbn. split_and!; [done | lia | lia |]. by apply Forall_delete. }
  by apply IH.
Qed.

(** A socket that closes, is retried, and fails to be created. *)
Lemma retries_bounded_witness :
  0 ≤ retryCount (run constructor [Close; Fire 0 true; Close; Open; Close]) ≤ 5 ∧
  timers (run constructor [Close; Fire 0 true; Close; Open; Close])
  = [10000; 15000; 5000].
Proof.
  destruct (retries_bounded constructor
              [Close; Fire 0 true; Close; Open; Close])
    as (_ & Hcount & _); [reflexivity | done | constructor |].
  split; [exact Hcount | reflexivity].
Defined.

(** X14.  The delays grow by five seconds per failure and then the
    manager gives up: after [n] closes in a row, counted from a
    connection that was open (retry counter zero), the retry counter is
    the smaller of [n] and five and the timers added are those of five,
    ten, ... seconds, one per counted close; a sixth close and every
    later one adds no timer. *)
Theorem retries_give_up (cm : ConnectionManager.t) (n : nat) :
  retryCount cm = 0 →
  maxRetries cm = 5 →
  retryCount (run cm (replicate n Close)) = Z.of_nat (n `min` 5) ∧
  maxRetries (run cm (replicate n Close)) = 5 ∧
  timers (run cm (replicate n Close))
  = timers cm ++ ((λ k : nat, 5000 * Z.of_nat k) <$> seq 1 (n `min` 5)).
Proof.
  intros Hcount Hmax. induction n as [|n (IHc & IHm & IHt)].
  - cbn. by rewrite app_nil_r.
  - rewrite replicate_S_end. unfold run in *. rewrite foldl_app. cbn [foldl step].
    unfold onclose, retryConnection, showStatus.
    cbn [retryCount maxRetries timers isConnected ws badge].
    rewrite IHc, IHm, IHt.
    destruct (decide (n < 5)%nat) as [Hlt|Hge].
    + rewrite bool_decide_eq_true_2 by lia.
      cbn [retryCount maxRetries timers].
      replace (S n `min` 5)%nat with (S (n `min` 5)) by lia.
      rewrite seq_S, fmap_app, app_assoc.
      split_and!; [lia | done |]. cbn [fmap list_fmap]. do 3 f_equal. lia.
    + rewrite bool_decide_eq_false_2 by lia.
      cbn [retryCount maxRetries timers].
      replace (S n `min` 5)%nat with (n `min` 5)%nat by lia. done.
Qed.

(** Seven closes in a row on a fresh manager. *)
Lemma retries_give_up_witness :
  retryCount (run constructor (replicate 7 Close)) = 5 ∧
  timers (run constructor (replicate 7 Close))
  = [5000; 10000; 15000; 20000; 25000].
Proof.
  destruct (retries_give_up constructor 7) as (Hc & _ & Ht);
    [reflexivity | reflexivity |].
  split; [exact Hc | exact Ht].
Defined.

End ConnectionFacts.

(** ** The list of updates of the event-stream client *)

Section UpdateListFacts.
Import SseUpdateHandler.

Lemma take_app_take {A} (n : nat) (x y : list A) :
  take n (x ++ take n y) = take n (x ++ y).
Proof.
  destruct (decide (n ≤ length x)%nat) as [Hle|Hgt].
  - by rewrite !take_app_le by done.
  - rewrite !take_app_ge by lia. f_equal. rewrite take_take. f_equal. lia.
Qed.

Lemma addUpdate_updates now update h :
  maxUpdates h = 100 →
  (length (updates h) ≤ 100)%nat →
  updates (addUpdate now update h) = take 100 (entry (now, update) :: updates h).
Proof.
  intros Hmax Hlen. unfold addUpdate. cbn [updates updateBadge saveUpdates].
  rewrite Hmax. case_bool_decide as Hfull.
  - rewrite List.removelast_firstn_len.
    cbn [length] in *. assert (length (updates h) = 100)%nat as -> by lia.
    reflexivity.
  - cbn [length] in Hfull. symmetry. apply take_ge. cbn [length]. lia.
Qed.

(** X15.  The handler keeps the hundred latest updates, newest first:
    after any number of updates added to a handler that holds at most a
    hundred, the list is the first hundred entries of the new updates in
    reverse order of arrival followed by the old list; it never holds
    more than a hundred, the limit stays, and what is stored in the
    browser is the list itself once an update was added. *)
Theorem addUpdates_keep_latest (h : SseUpdateHandler.t)
    (arrivals : list (Z * Incoming)) :
  maxUpdates h = 100 →
  (length (updates h) ≤ 100)%nat →
  updates (addUpdates h arrivals)
  = take 100 (reverse (entry <$> arrivals) ++ updates h) ∧
  (length (updates (addUpdates h arrivals)) ≤ 100)%nat ∧
  maxUpdates (addUpdates h arrivals) = 100 ∧
  (arrivals ≠ [] →
   stored (addUpdates h arrivals) = Some (updates (addUpdates h arrivals))).
Proof.
  revert h. induction arrivals as [|[now update] arrivals IH] using rev_ind;
    intros h Hmax Hlen.
  - cbn. split_and!; [by rewrite take_ge | done..].
  - unfold addUpdates in *. rewrite foldl_app. cbn [foldl fst snd].
    destruct (IH h Hmax Hlen) as (IHu & IHl & IHm & _).
    set (h0 := foldl _ h arrivals) in *.
    assert (updates (addUpdate now update h0)
            = take 100 (reverse (entry <$> arrivals ++ [(now, update)])
                        ++ updates h)) as Hu.
    { rewrite addUpdate_updates by done. rewrite IHu.
      rewrite fmap_app, reverse_app.
      change (reverse (entry <$> [(now, update)])) with [entry (now, update)].
      change (entry (now, update) :: ?l) with ([entry (now, update)] ++ l).
      by rewrite take_app_take, <- app_assoc. }
    split_and!; [done | rewrite Hu, length_take; lia | done | done].
Qed.

(** A hundred and one updates on a fresh handler. *)
Lemma addUpdates_keep_latest_witness :
  length
    (updates
       (addUpdates constructor
          ((λ k : nat,
              (Z.of_nat k,
               {| type := "jira-update"; taskId := "PROJECT-123";
                  change := ∅; timestamp := Z.of_nat k |}))
             <$> seq 0 101)))
  = 100%nat.
Proof.
  destruct (addUpdates_keep_latest constructor
              ((λ k : nat,
                  (Z.of_nat k,
                   {| type := "jira-update"; taskId := "PROJECT-123";
                      change := ∅; timestamp := Z.of_nat k |}))
                 <$> seq 0 101))
    as (-> & _); [reflexivity | cbn; lia |].
  rewrite length_take, List.length_app, length_reverse, !length_fmap, length_seq.
  reflexivity.
Defined.

(** X16.  After an update is added the badge shows the number of unread
    updates, which is at least one (the update just added) and at most a
    hundred; the badge is cleared by no [addUpdate]. *)
Theorem addUpdate_badge (now : Z) (update : Incoming) (h : SseUpdateHandler.t) :
  maxUpdates h = 100 →
  (length (updates h) ≤ 100)%nat →
  badgeText (addUpdate now update h)
  = Some (pretty.pretty (unread (addUpdate now update h))) ∧
  (1 ≤ unread (addUpdate now update h) ≤ 100)%nat ∧
  (unread (addUpdate now update h) ≤ S (unread h))%nat ∧
  stored (addUpdate now update h) = Some (updates (addUpdate now update h)).
Proof.
  intros Hmax Hlen.
  assert (unread (addUpdate now update h)
          = S (length (filter (λ u, read u = false) (take 99 (updates h)))))
    as Hunread.
  { unfold unread. rewrite addUpdate_updates by done.
    cbn [take]. by rewrite filter_cons_True. }
  assert (length (filter (λ u, read u = false) (take 99 (updates h)))
          ≤ 99)%nat as H99.
  { etrans; [apply length_filter|]. rewrite length_take. lia. }
  assert (length (filter (λ u, read u = false) (take 99 (updates h)))
          ≤ unread h)%nat as Hold.
  { unfold unread. rewrite <- (take_drop 99 (updates h)) at 2.
    rewrite list.filter_app, List.length_app. lia. }
  split_and!; [|lia..|done].
  change (badgeText (addUpdate now update h))
    with (Some (if bool_decide (0 < unread (addUpdate now update h))%nat
                then pretty.pretty (unread (addUpdate now update h)) else "")).
  rewrite bool_decide_eq_true_2 by lia. done.
Qed.

(** The first update on a fresh handler. *)
Lemma addUpdate_badge_witness :
  badgeText
    (addUpdate 1710000000000
       {| type := "jira-update"; taskId := "PROJECT-123"; change := ∅;
          timestamp := 1710000000000 |} constructor) = Some "1".
Proof.
  destruct (addUpdate_badge 1710000000000
              {| type := "jira-update"; taskId := "PROJECT-123"; change := ∅;
                 timestamp := 1710000000000 |} constructor)
    as (-> & _); [reflexivity | cbn; lia | reflexivity].
Defined.

End UpdateListFacts.

(** ** The notification history of the socket client *)

Section HistoryFacts.
Import UpdateHandler.

(** X17.  Cleaning keeps exactly the notifications younger than a day,
    in their order; cleaning again at the same instant changes nothing,
    and cleaning at some instant and again later leaves what one
    cleaning at the later instant leaves. *)
Theorem cleanOldUpdates_keeps_recent (now now' : Z)
    (notifications : list Notification) :
  now ≤ now' →
  cleanOldUpdates now notifications `sublist_of` notifications ∧
  (∀ n, n ∈ cleanOldUpdates now notifications ↔
        n ∈ notifications ∧ now - timestamp n < 86400000) ∧
  cleanOldUpdates now (cleanOldUpdates now notifications)
  = cleanOldUpdates now notifications ∧
  cleanOldUpdates now' (cleanOldUpdates now notifications)
  = cleanOldUpdates now' notifications.
Proof.
  intros Hnow. unfold cleanOldUpdates.
  change ONE_DAY with 86400000.
  split_and!.
  - apply sublist_filter.
  - intros n. rewrite list_elem_of_filter. tauto.
  - rewrite list_filter_filter. apply list_filter_iff. intros n. tauto.
  - rewrite list_filter_filter. apply list_filter_iff. intros n.
    split; [tauto | intros ?; split; [done | lia]].
Qed.

(** A notification of two days ago and one of an hour ago. *)
Lemma cleanOldUpdates_keeps_recent_witness :
  cleanOldUpdates 1710172800000
    [{| title := "Update in PROJECT-7"; message := "Assigned to ann";
        timestamp := 1710000000000 |};
     {| title := "Update in PROJECT-123"; message := "New comment from bob";
        timestamp := 1710169200000 |}]
  = [{| title := "Update in PROJECT-123"; message := "New comment from bob";
        timestamp := 1710169200000 |}] ∧
  cleanOldUpdates 1710172800000
    (cleanOldUpdates 1710086400000
       [{| title := "Update in PROJECT-7"; message := "Assigned to ann";
           timestamp := 1710000000000 |};
        {| title := "Update in PROJECT-123"; message := "New comment from bob";
           timestamp := 1710169200000 |}])
  = [{| title := "Update in PROJECT-123"; message := "New comment from bob";
        timestamp := 1710169200000 |}].
Proof.
  destruct (cleanOldUpdates_keeps_recent 1710086400000 1710172800000
    [{| title := "Update in PROJECT-7"; message := "Assigned to ann";
        timestamp := 1710000000000 |};
     {| title := "Update in PROJECT-123"; message := "New comment from bob";
        timestamp := 1710169200000 |}])
    as (_ & _ & _ & Hlater); [lia|].
  split; [reflexivity|]. rewrite Hlater. reflexivity.
Defined.

End HistoryFacts.

(** ** The age shown for an update *)

Section FormatTimeFacts.
Import PopupUI.

(** X18.  The age shown is "Just now" for an update less than a minute
    old, and for one stamped in the future; a whole number of minutes
    from 1 to 59 for an age of a minute up to an hour, and a whole
    number of hours from 1 to 23 for an age of an hour up to a day, the
    number being the age rounded down and the unit in the singular
    exactly for the number one; and the browser's date for an age of a
    day or more. *)
Theorem formatTime_tiers (toLocaleDateString : Z → string) (now timestamp : Z) :
  (now - timestamp < 60000 →
   formatTime toLocaleDateString now timestamp = "Just now") ∧
  (60000 ≤ now - timestamp < 3600000 →
   ∃ minutes : Z,
     1 ≤ minutes ≤ 59 ∧
     60000 * minutes ≤ now - timestamp < 60000 * (minutes + 1) ∧
     formatTime toLocaleDateString now timestamp
     = pretty.pretty minutes +:+
       (if decide (minutes = 1) then " minute ago" else " minutes ago")) ∧
  (3600000 ≤ now - timestamp < 86400000 →
   ∃ hours : Z,
     1 ≤ hours ≤ 23 ∧
     3600000 * hours ≤ now - timestamp < 3600000 * (hours + 1) ∧
     formatTime toLocaleDateString now timestamp
     = pretty.pretty hours +:+
       (if decide (hours = 1) then " hour ago" else " hours ago")) ∧
  (86400000 ≤ now - timestamp →
   formatTime toLocaleDateString now timestamp
   = toLocaleDateString timestamp).
Proof.
  unfold formatTime. cbn zeta. split_and!.
  - intros Hd. by rewrite bool_decide_eq_true_2.
  - intros Hd. rewrite bool_decide_eq_false_2, bool_decide_eq_true_2 by lia.
    exists ((now - timestamp) / 60000).
    pose proof (Z.div_mod (now - timestamp) 60000 ltac:(lia)).
    pose proof (Z.mod_pos_bound (now - timestamp) 60000 ltac:(lia)).
    split; [lia|]. split; [lia|].
    destruct (decide ((now - timestamp) / 60000 = 1)) as [->|Hne].
    + reflexivity.
    + by rewrite bool_decide_eq_true_2 by lia.
  - intros Hd. rewrite !bool_decide_eq_false_2 by lia.
    rewrite bool_decide_eq_true_2 by lia.
    exists ((now - timestamp) / 3600000).
    pose proof (Z.div_mod (now - timestamp) 3600000 ltac:(lia)).
    pose proof (Z.mod_pos_bound (now - timestamp) 3600000 ltac:(lia)).
    split; [lia|]. split; [lia|].
    destruct (decide ((now - timestamp) / 3600000 = 1)) as [->|Hne].
    + reflexivity.
    + by rewrite bool_decide_eq_true_2 by lia.
  - intros Hd. by rewrite !bool_decide_eq_false_2 by lia.
Qed.

Example formatTime_ninety_seconds :
  formatTime (λ _, "3/10/2024") 1710000090000 1710000000000 = "1 minute ago".
Proof. reflexivity. Qed.

Example formatTime_five_hours :
  formatTime (λ _, "3/10/2024") 1710018000000 1710000000000 = "5 hours ago".
Proof. reflexivity. Qed.

End FormatTimeFacts.

(** ** The connections of the webhook back end *)

Section WebSocketFacts.
Import WebSocketManager.

Lemma connect_lookup task_id websocket (m : gmap string (gset nat)) :
  connect task_id websocket m
  = <[task_id := default ∅ (m !! task_id) ∪ {[websocket]}]> m.
Proof.
  unfold connect. destruct (m !! task_id) eqn:Hm; cbn.
  - by rewrite Hm.
  - by rewrite lookup_insert_eq, insert_insert_eq.
Qed.

(** X19.  No task is ever left with an empty set of connections: the
    property holds of the empty registry and is kept by [connect] and by
    every [disconnect] that does not raise; after [connect] the socket
    is among those a broadcast for the task reaches, and after
    [disconnect] it is not. *)
Theorem connections_never_empty (task_id : string) (websocket : nat)
    (m : gmap string (gset nat)) :
  no_empty_set m →
  no_empty_set (connect task_id websocket m) ∧
  websocket ∈ broadcast_update task_id (connect task_id websocket m) ∧
  (∀ m', disconnect task_id websocket m = inr m' →
         no_empty_set m' ∧ websocket ∉ broadcast_update task_id m').
Proof.
  intros Hinv. split_and!.
  - rewrite connect_lookup. intros t s Hs.
    apply lookup_insert_Some in Hs as [[_ <-]|[_ Hs]]; [set_solver | by eapply Hinv].
  - unfold broadcast_update. rewrite connect_lookup, lookup_insert_eq. set_solver.
  - intros m'. unfold disconnect, broadcast_update.
    destruct (m !! task_id) as [s|] eqn:Hm; [|done].
    destruct (decide (websocket ∈ s)); [|done].
    destruct (decide (s ∖ {[websocket]} = ∅)) as [Hempty|Hne]; intros [= <-].
    + split; [|rewrite lookup_delete_eq; set_solver].
      intros t s' Hs'. apply lookup_delete_Some in Hs' as [_ Hs'].
      by eapply Hinv.
    + split; [|rewrite lookup_insert_eq; set_solver].
      intros t s' Hs'.
      apply lookup_insert_Some in Hs' as [[_ <-]|[_ Hs']]; [done | by eapply Hinv].
Qed.

(** Socket 1 joins PROJECT-123, where socket 2 already listens. *)
Lemma connections_never_empty_witness :
  1%nat ∈ broadcast_update "PROJECT-123"
            (connect "PROJECT-123" 1 {["PROJECT-123" := {[2%nat]}]}).
Proof.
  destruct (connections_never_empty "PROJECT-123" 1
              {["PROJECT-123" := {[2%nat]}]}) as (_ & Hin & _); [|exact Hin].
  intros t s [_ <-]%lookup_singleton_Some. set_solver.
Defined.

(** X20.  Connecting a socket and disconnecting it again restores the
    registry, for a socket that was not connected for the task; and
    [disconnect] raises [KeyError] exactly when the socket is not
    connected for the task. *)
Theorem connect_disconnect (task_id : string) (websocket : nat)
    (m : gmap string (gset nat)) :
  no_empty_set m →
  websocket ∉ broadcast_update task_id m →
  disconnect task_id websocket (connect task_id websocket m) = inr m ∧
  disconnect task_id websocket m = inl KeyError ∧
  (∀ m0 : gmap string (gset nat),
     disconnect task_id websocket m0 = inl KeyError ↔
     websocket ∉ broadcast_update task_id m0).
Proof.
  intros Hinv Hnot.
  assert (∀ m0 : gmap string (gset nat),
            disconnect task_id websocket m0 = inl KeyError ↔
            websocket ∉ broadcast_update task_id m0) as Hraise.
  { intros m0. unfold disconnect, broadcast_update.
    destruct (m0 !! task_id) as [s|]; [|set_solver].
    destruct (decide (websocket ∈ s)); [|done].
    split; [|done]. by repeat case_decide. }
  split_and!; [|by apply Hraise|done].
  rewrite connect_lookup. unfold disconnect, broadcast_update in *.
  rewrite lookup_insert_eq.
  rewrite decide_True by set_solver.
  destruct (m !! task_id) as [s|] eqn:Hm; cbn.
  - assert ((s ∪ {[websocket]}) ∖ {[websocket]} = s) as -> by set_solver.
    rewrite decide_False by (by eapply Hinv).
    by rewrite insert_insert_eq, insert_id.
  - rewrite decide_True by set_solver.
    by rewrite delete_insert_eq, delete_id.
Qed.

(** Socket 1 joins PROJECT-123 and leaves again. *)
Lemma connect_disconnect_witness :
  disconnect "PROJECT-123" 1
    (connect "PROJECT-123" 1 {["PROJECT-123" := {[2%nat]}]})
  = inr {["PROJECT-123" := {[2%nat]}]}.
Proof.
  destruct (connect_disconnect "PROJECT-123" 1
              {["PROJECT-123" := {[2%nat]}]}) as (Hround & _); [| |exact Hround].
  - intros t s [_ <-]%lookup_singleton_Some. set_solver.
  - unfold broadcast_update. rewrite lookup_singleton_eq. set_solver.
Defined.

End WebSocketFacts.

(** ** Saving the current URL *)

Section SaveUrlFacts.
Import BigQueryService.

(** X21.  A save answers once, and answers success exactly when a tab
    is listed, credentials are stored and the one request sent was
    answered ok.  At most one request is sent, and none without a tab or
    without credentials; a request that is sent carries the stored token
    and one row with the URL and title of the first tab listed, for the
    user [default_user].  Without credentials the error of the answer is
    that credentials were not found, and for a response that is not ok,
    that the save failed. *)
Theorem handleSaveUrl_outcome (env : Env) :
  (success (handleSaveUrl env).2 = true ↔
   ∃ tab others token request,
     tabs env = tab :: others ∧ access_token env = Some token ∧
     (handleSaveUrl env).1 = [request] ∧
     fetch env request = Responded true) ∧
  (length (handleSaveUrl env).1 ≤ 1)%nat ∧
  (tabs env = [] ∨ access_token env = None → (handleSaveUrl env).1 = []) ∧
  (∀ request, request ∈ (handleSaveUrl env).1 →
     ∃ tab others token,
       tabs env = tab :: others ∧ access_token env = Some token ∧
       authorization request = "Bearer " +:+ token ∧
       method request = "POST" ∧
       rows request
       = [{| url := Tab.url tab; title := Tab.title tab;
             saved_timestamp := toISOString env;
             user_id := "default_user" |}]) ∧
  (tabs env ≠ [] → access_token env = None →
   (handleSaveUrl env).2
   = {| success := false; message := None;
        error := Some "BigQuery credentials not found" |}) ∧
  (∀ request, (handleSaveUrl env).1 = [request] →
     fetch env request = Responded false →
     (handleSaveUrl env).2
     = {| success := false; message := None;
          error := Some "Failed to save URL to BigQuery" |}) ∧
  (success (handleSaveUrl env).2 = false ↔
   is_Some (error (handleSaveUrl env).2)).
Proof.
  unfold handleSaveUrl, saveUrlToBigQuery, getAccessToken.
  destruct (tabs env) as [|tab others] eqn:Htabs.
  { cbn. split_and!; [| lia | done | | done | done |].
    - split; [done|]. by intros (? & ? & ? & ? & ? & _).
    - intros request Hin. by apply elem_of_nil in Hin.
    - split; [by eexists | done]. }
  destruct (access_token env) as [token|] eqn:Htoken.
  2: { cbn. split_and!; [| lia | done | | done | done |].
       - split; [done|]. by intros (? & ? & ? & ? & _ & ? & _).
       - intros request Hin. by apply elem_of_nil in Hin.
       - split; [by eexists | done]. }
  cbn zeta.
  match goal with |- context [fetch env ?r] => set (request := r) end.
  assert (∀ request', request' ∈ [request] →
            ∃ tab0 others0 token0,
              tab :: others = tab0 :: others0 ∧ Some token = Some token0 ∧
              authorization request' = "Bearer " +:+ token0 ∧
              method request' = "POST" ∧
              rows request'
              = [{| url := Tab.url tab0; title := Tab.title tab0;
                    saved_timestamp := toISOString env;
                    user_id := "default_user" |}]) as Hsent.
  { intros request' ->%list_elem_of_singleton. by eexists _, _, _. }
  destruct (fetch env request) as [message|[|]] eqn:Hfetch; cbn.
  - split_and!; [| lia | by intros [|] | done | done | |].
    + split; [done|]. intros (? & ? & ? & request' & _ & _ & [= <-] & ?).
      congruence.
    + intros request' [= <-]. congruence.
    + split; [by eexists | done].
  - split_and!; [| lia | by intros [|] | done | done | |].
    + split; [|done]. intros _. by eexists _, _, _, _.
    + intros request' [= <-]. congruence.
    + split; [done | by intros [? ?]].
  - split_and!; [| lia | by intros [|] | done | done | |].
    + split; [done|]. intros (? & ? & ? & request' & _ & _ & [= <-] & ?).
      congruence.
    + done.
    + split; [by eexists | done].
Qed.

End SaveUrlFacts.

(** ** Updates of other tasks *)

Section OtherTaskFacts.
Import NotificationManager.
Context `{Helpers}.

Lemma drain_keeps nm n :
  n ∈ notificationQueue nm →
  n ∈ notificationQueue (drain nm) ∨ n ∈ shown (drain nm).
Proof.
  unfold drain. destruct (notificationQueue nm) as [|first rest] eqn:Hq; cbn.
  - rewrite Hq. by left.
  - intros [->|Hin]%elem_of_cons; [right | by left].
    apply elem_of_app. right. by left.
Qed.

(** X22.  Updates of different tasks never merge, whatever the
    preferences are: an update for a task that has no entry in the queue
    gets an entry of its own, placed last in the record of the manager,
    and every entry that was queued is afterwards still queued or has
    been shown, with its message as it was. *)
Theorem other_tasks_never_merge (nm : NotificationManager.t)
    (update : Update.t) (now : Z) :
  Forall (λ n, groupId n ≠ Update.taskKey update) (notificationQueue nm) →
  history (addNotification nm update now)
  = history nm ++ [skeleton (createNotification update now)] ∧
  (notificationQueue (addNotification nm update now)
   = notificationQueue nm ++ [createNotification update now] ∨
   notificationQueue (addNotification nm update now)
   = tail (notificationQueue nm ++ [createNotification update now])) ∧
  (∀ n, n ∈ notificationQueue nm →
        n ∈ notificationQueue (addNotification nm update now) ∨
        n ∈ shown (addNotification nm update now)).
Proof.
  intros Hother.
  assert (grouping (preferences nm) = false ∨
          list_find (similar (createNotification update now))
            (notificationQueue nm) = None) as Hcase.
  { right. apply (list_find_None _ _).
    rewrite list.Forall_forall in Hother. apply list.Forall_forall.
    intros n Hin [Hg _]. by apply (Hother n Hin). }
  split_and!.
  - rewrite addNotification_pushed by done.
    destruct (negb _); rewrite ?processQueue_history;
      unfold history; cbn [shown notificationQueue set_notificationQueue];
      by rewrite !fmap_app, app_assoc.
  - by apply addNotification_pushed_queue.
  - intros n Hin. rewrite addNotification_pushed by done.
    assert (n ∈ notificationQueue
                  (set_notificationQueue
                     (notificationQueue nm ++ [createNotification update now])
                     nm)) as Hin'
      by (cbn; apply elem_of_app; by left).
    destruct (negb _); [|by left].
    unfold processQueue. destruct (negb _); [by left|].
    by apply (drain_keeps (set_isProcessing true _)).
Qed.

End OtherTaskFacts.

(** An update for PROJECT-9 while an entry of PROJECT-123 waits. *)
Lemma other_tasks_never_merge_witness :
  NotificationManager.notificationQueue
    (@NotificationManager.addNotification sample_notification_helpers
       one_queued (status_update "PROJECT-9" "Assigned to bob") 2000)
  = [queued_first;
     @NotificationManager.createNotification sample_notification_helpers
       (status_update "PROJECT-9" "Assigned to bob") 2000] ∧
  (queued_first ∈
     NotificationManager.notificationQueue
       (@NotificationManager.addNotification sample_notification_helpers
          one_queued (status_update "PROJECT-9" "Assigned to bob") 2000) ∨
   queued_first ∈
     NotificationManager.shown
       (@NotificationManager.addNotification sample_notification_helpers
          one_queued (status_update "PROJECT-9" "Assigned to bob") 2000)).
Proof.
  destruct (@other_tasks_never_merge sample_notification_helpers one_queued
              (status_update "PROJECT-9" "Assigned to bob") 2000)
    as (_ & _ & Hkept).
  - repeat constructor. discriminate.
  - split; [reflexivity|]. apply Hkept. by left.
Defined.
